(** * crossref_data_extraction: a shallow embedding and its properties

    The pipeline of [src/main.py] (metadata lookup, PDF retrieval,
    property extraction by a reasoning service, aggregation) embedded as
    Rocq functions, with the properties of its natural-language
    specification stated and settled against the embedding.

    Layout: [Py] holds the Python values and builtins the code relies on;
    [Tenacity] the retry decorator; [Schemas], [CrossrefClient],
    [LLMExtractor] and [Main] follow the source files of the same names. *)

From Stdlib Require Import List String Ascii ZArith Lia Bool.
From Stdlib Require Import Numbers.DecimalString.
From Stdlib Require Import Floats.SpecFloat.
Import ListNotations.

Local Open Scope list_scope.
Local Open Scope string_scope.
#[local] Set Warnings "-abstract-large-number".

(* ================================================================== *)
(** * Python values and builtins *)
(* ================================================================== *)

Module Py.

(** Exceptions.  Every constructor stands for a subclass of Python's
    [Exception], so that [except Exception] and a bare [except] catch
    each of them. *)
Inductive exn : Type :=
| KeyError (key : string)
| IndexError
| TypeError
| AttributeError
| ValueError
| OverflowError
| JSONDecodeError
| ValidationError
| OSError
| ConnectionError
| HTTPError (status_code : Z)
| WebDriverException
| APIError
| RetryError (last_attempt : exn).

(** A computation that returns a value or raises. *)
Inductive result (A : Type) : Type :=
| Ok (a : A)
| Raise (e : exn).
Arguments Ok {A} a.
Arguments Raise {A} e.

Definition rbind {A B} (r : result A) (k : A -> result B) : result B :=
  match r with
  | Ok a => k a
  | Raise e => Raise e
  end.

Notation "'let*' x ':=' e 'in' k" := (rbind e (fun x => k))
  (at level 10, x pattern, e at level 100, k at level 200).

(** Effectful code threads a world [W] through its calls; an exception
    leaves the effects performed so far in place. *)
Definition io (W A : Type) : Type := W -> result A * W.

Definition ret {W A} (a : A) : io W A := fun w => (Ok a, w).
Definition raise {W A} (e : exn) : io W A := fun w => (Raise e, w).
Definition lift {W A} (r : result A) : io W A := fun w => (r, w).

Definition bind {W A B} (m : io W A) (k : A -> io W B) : io W B :=
  fun w =>
    match m w with
    | (Ok a, w') => k a w'
    | (Raise e, w') => (Raise e, w')
    end.

Notation "x <- m ;; k" := (bind m (fun x => k))
  (at level 61, m at next level, right associativity).
Notation "m ;;; k" := (bind m (fun _ => k))
  (at level 61, right associativity).

(** [try: m  except Exception as e: h e]. *)
Definition try_except {W A} (m : io W A) (h : exn -> io W A) : io W A :=
  fun w =>
    match m w with
    | (Ok a, w') => (Ok a, w')
    | (Raise e, w') => h e w'
    end.

(** [try: m  finally: f]: [f] runs on both exits; when [f] itself raises,
    its exception replaces the outcome of [m]. *)
Definition try_finally {W A} (m : io W A) (f : io W unit) : io W A :=
  fun w =>
    match m w with
    | (r, w') =>
        match f w' with
        | (Ok _, w'') => (r, w'')
        | (Raise e, w'') => (Raise e, w'')
        end
    end.

(** ** Strings

    A Python [str] is modelled by [string]; its characters are the code
    points below 256.  Text beyond Latin-1 is outside the model. *)

Definition chr (c : ascii) : string := String c EmptyString.

(** [old in s] for strings. *)
Fixpoint str_contains (old s : string) : bool :=
  prefix old s ||
  match s with
  | EmptyString => false
  | String _ s' => str_contains old s'
  end.

(** The scan of [s.replace(old, new)] for a non-empty [old]: left to
    right, every occurrence of [old] that starts outside an occurrence
    already replaced.  [skip] counts the characters of the current
    occurrence still to be passed over. *)
Fixpoint replace_from (old new : string) (skip : nat) (s : string) : string :=
  match s with
  | EmptyString => EmptyString
  | String c s' =>
      match skip with
      | S k => replace_from old new k s'
      | O =>
          if prefix old s
          then new ++ replace_from old new (String.length old - 1) s'
          else String c (replace_from old new 0 s')
      end
  end.

Definition str_replace (old new s : string) : string :=
  replace_from old new 0 s.

Fixpoint str_rev_onto (s acc : string) : string :=
  match s with
  | EmptyString => acc
  | String c s' => str_rev_onto s' (String c acc)
  end.

Definition str_rev (s : string) : string := str_rev_onto s EmptyString.

Fixpoint lstrip_while (p : ascii -> bool) (s : string) : string :=
  match s with
  | EmptyString => EmptyString
  | String c s' => if p c then lstrip_while p s' else s
  end.

Definition rstrip_while (p : ascii -> bool) (s : string) : string :=
  str_rev (lstrip_while p (str_rev s)).

(** White space of [str.strip()]: TAB..CR, FS..US, the space, NEL and
    the no-break space. *)
Definition isspace (c : ascii) : bool :=
  let n := nat_of_ascii c in
  ((9 <=? n) && (n <=? 13) || (28 <=? n) && (n <=? 32)
   || (n =? 133) || (n =? 160))%nat.

Definition str_strip (s : string) : string :=
  rstrip_while isspace (lstrip_while isspace s).

(** [s.rstrip(chars)] for a one-character [chars]. *)
Definition str_rstrip_char (c : ascii) (s : string) : string :=
  rstrip_while (Ascii.eqb c) s.

Fixpoint str_join (sep : string) (l : list string) : string :=
  match l with
  | [] => ""
  | [x] => x
  | x :: rest => x ++ sep ++ str_join sep rest
  end.

(** [s.endswith(suffix)]. *)
Definition str_endswith (suffix s : string) : bool :=
  prefix (str_rev suffix) (str_rev s).

(** [s[:n]]. *)
Definition str_take (n : nat) (s : string) : string := substring 0 n s.

(** [str(n)] for an [int]. *)
Definition str_int (n : Z) : string := NilZero.string_of_int (Z.to_int n).

(** ** Floats

    A Python [float] is an IEEE 754 binary64 number: [spec_float] at
    precision 53 and maximal exponent 1024. *)

Definition prec : Z := 53.
Definition emax : Z := 1024.

(** The binary64 number nearest to [m * 10 ^ e10] (ties to even), for a
    decimal mantissa [m >= 0] with sign [neg]. *)
Definition float_of_decimal (neg : bool) (m : Z) (e10 : Z) : spec_float :=
  match m with
  | Zpos p =>
      if (0 <=? e10)%Z
      then binary_round prec emax neg (p * Z.to_pos (10 ^ e10)) 0
      else SFdiv prec emax (S754_finite neg p 0)
                 (S754_finite false (Z.to_pos (10 ^ (- e10))) 0)
  | _ => S754_zero neg
  end.

(** [float(n)] for an [int]; an [int] beyond the largest float raises. *)
Definition float_of_int (n : Z) : result spec_float :=
  match binary_normalize prec emax n 0 false with
  | S754_infinity _ => Raise OverflowError
  | f => Ok f
  end.

Definition is_digit (c : ascii) : bool :=
  let n := nat_of_ascii c in ((48 <=? n) && (n <=? 57))%nat.

Definition digit_val (c : ascii) : Z := Z.of_nat (nat_of_ascii c - 48).

(** The rest of a digit part [digit (['_'] digit)*] after its first
    digit: the value accumulated onto [acc], the number of digits read
    and the unread rest. *)
Fixpoint digits_more (acc : Z) (n : nat) (s : string) : Z * nat * string :=
  match s with
  | String c s' =>
      if is_digit c then digits_more (10 * acc + digit_val c) (S n) s'
      else if Ascii.eqb c "_" then
        match s' with
        | String c2 s'' =>
            if is_digit c2
            then digits_more (10 * acc + digit_val c2) (S n) s''
            else (acc, n, s)
        | EmptyString => (acc, n, s)
        end
      else (acc, n, s)
  | EmptyString => (acc, n, s)
  end.

Definition digitpart (acc : Z) (s : string) : option (Z * nat * string) :=
  match s with
  | String c s' =>
      if is_digit c then Some (digits_more (10 * acc + digit_val c) 1 s')
      else None
  | EmptyString => None
  end.

(** White space that [float()] skips around its argument. *)
Definition float_space (c : ascii) : bool :=
  let n := nat_of_ascii c in
  ((9 <=? n) && (n <=? 13) || (n =? 32) || (n =? 133) || (n =? 160))%nat.

Definition lower (c : ascii) : ascii :=
  let n := nat_of_ascii c in
  if ((65 <=? n) && (n <=? 90))%nat then ascii_of_nat (n + 32) else c.

Fixpoint str_lower (s : string) : string :=
  match s with
  | EmptyString => EmptyString
  | String c s' => String (lower c) (str_lower s')
  end.

(** An optional sign: whether it is a minus, and the rest. *)
Definition read_sign (s : string) : bool * string :=
  match s with
  | String "-" s' => (true, s')
  | String "+" s' => (false, s')
  | _ => (false, s)
  end.

(** The optional exponent and the end of the literal. *)
Definition read_exponent (s : string) : option Z :=
  match s with
  | EmptyString => Some 0%Z
  | String c s' =>
      if Ascii.eqb (lower c) "e" then
        let (neg, s'') := read_sign s' in
        match digitpart 0 s'' with
        | Some (e, _, EmptyString) => Some (if neg then (- e)%Z else e)
        | _ => None
        end
      else None
  end.

(** The decimal literal [number [exponent]] as mantissa and power of ten. *)
Definition read_decimal (s : string) : option (Z * Z) :=
  let finish (m : Z) (nfrac : nat) (rest : string) :=
    match read_exponent rest with
    | Some e => Some (m, (e - Z.of_nat nfrac)%Z)
    | None => None
    end in
  match digitpart 0 s with
  | Some (i, _, String "." rest) =>
      match digitpart i rest with
      | Some (m, nfrac, rest') => finish m nfrac rest'
      | None => finish i 0%nat rest
      end
  | Some (i, _, rest) => finish i 0%nat rest
  | None =>
      match s with
      | String "." rest =>
          match digitpart 0 rest with
          | Some (m, nfrac, rest') => finish m nfrac rest'
          | None => None
          end
      | _ => None
      end
  end.

(** [float(s)] for a [str]. *)
Definition float_of_str (s : string) : result spec_float :=
  let s := rstrip_while float_space (lstrip_while float_space s) in
  let (neg, body) := read_sign s in
  let word := str_lower body in
  if String.eqb word "inf" || String.eqb word "infinity"
  then Ok (S754_infinity neg)
  else if String.eqb word "nan" then Ok S754_nan
  else match read_decimal body with
       | Some (m, e10) => Ok (float_of_decimal neg m e10)
       | None => Raise ValueError
       end.

(** *** [repr] of a float

    The shortest decimal digit string that reads back as the same float,
    nearest to it among the shortest, laid out as [repr] does: fixed
    notation when the decimal point falls in [-3 .. 16], scientific
    notation otherwise. *)

Definition num_digits (n : Z) : Z := Z.of_nat (String.length (str_int n)).

(** The least [j <= fuel] with [num * 10 ^ j >= den]. *)
Fixpoint scale_up (fuel : nat) (num den : Z) (j : Z) : Z :=
  match fuel with
  | O => j
  | S fuel' =>
      if (den <=? num)%Z then j else scale_up fuel' (10 * num)%Z den (j + 1)%Z
  end.

(** The position [P] of the decimal point of [num / den > 0]:
    [10 ^ (P - 1) <= num / den < 10 ^ P]. *)
Definition decimal_point (num den : Z) : Z :=
  if (den <=? num)%Z then num_digits (num / den)
  else (1 - scale_up 400 num den 0)%Z.

Definition reads_back (m : positive) (e : Z) (c k : Z) : bool :=
  match float_of_decimal false c k with
  | S754_finite _ m' e' => Pos.eqb m m' && Z.eqb e e'
  | _ => false
  end.

(** The [n]-digit candidate for [num / den], when one reads back: its
    digits as an integer and its power of ten. *)
Definition shortest_at (m : positive) (e : Z) (num den P : Z) (n : Z)
  : option (Z * Z) :=
  let k := (P - n)%Z in
  let (a, b) := if (0 <=? k)%Z then (num, den * 10 ^ k)%Z
                else (num * 10 ^ (- k), den)%Z in
  let lo := (a / b)%Z in
  let r := (a mod b)%Z in
  let hi := (lo + 1)%Z in
  let lo_ok := reads_back m e lo k in
  let hi_ok := reads_back m e hi k in
  let lo_nearer :=
    match (2 * r ?= b)%Z with
    | Lt => true
    | Eq => Z.even lo
    | Gt => false
    end in
  if lo_ok && (lo_nearer || negb hi_ok) then Some (lo, k)
  else if hi_ok then Some (hi, k)
  else None.

Fixpoint shortest_from (fuel : nat) (m : positive) (e : Z) (num den P n : Z)
  : Z * Z :=
  match fuel with
  | O => (let k := (P - 17)%Z in
          if (0 <=? k)%Z then (num / (den * 10 ^ k), k)
          else ((num * 10 ^ (- k)) / den, k))%Z
  | S fuel' =>
      match shortest_at m e num den P n with
      | Some r => r
      | None => shortest_from fuel' m e num den P (n + 1)%Z
      end
  end.

Fixpoint zeros (n : nat) : string :=
  match n with
  | O => ""
  | S n' => String "0" (zeros n')
  end.

Definition strip_zeros (s : string) : string :=
  rstrip_while (Ascii.eqb "0") s.

(** The digits [ds] with the decimal point after the first [P] of them. *)
Definition layout_digits (ds : string) (P : Z) : string :=
  let n := Z.of_nat (String.length ds) in
  if ((P <=? -4) || (16 <? P))%Z then
    let x := (P - 1)%Z in
    let mant :=
      match ds with
      | String d EmptyString => chr d
      | String d rest => String d ("." ++ rest)
      | EmptyString => ""
      end in
    let ex := str_int (Z.abs x) in
    let ex := if (Z.abs x <? 10)%Z then "0" ++ ex else ex in
    mant ++ "e" ++ (if (x <? 0)%Z then "-" else "+") ++ ex
  else if (P <=? 0)%Z then "0." ++ zeros (Z.to_nat (- P)) ++ ds
  else if (n <=? P)%Z then ds ++ zeros (Z.to_nat (P - n)) ++ ".0"
  else substring 0 (Z.to_nat P) ds ++ "."
       ++ substring (Z.to_nat P) (Z.to_nat (n - P)) ds.

Definition float_repr (f : spec_float) : string :=
  match f with
  | S754_nan => "nan"
  | S754_infinity neg => if neg then "-inf" else "inf"
  | S754_zero neg => if neg then "-0.0" else "0.0"
  | S754_finite neg m e =>
      let (num, den) := if (0 <=? e)%Z then (Zpos m * 2 ^ e, 1)%Z
                        else (Zpos m, 2 ^ (- e))%Z in
      let P := decimal_point num den in
      let (c, k) := shortest_from 17 m e num den P 1 in
      let all := str_int c in
      let ds := strip_zeros all in
      let P' := (Z.of_nat (String.length all) + k)%Z in
      (if neg then "-" else "") ++ layout_digits ds P'
  end.

(** *** [repr] of a string *)

Definition hex_digit (n : nat) : ascii :=
  if (n <? 10)%nat then ascii_of_nat (48 + n) else ascii_of_nat (87 + n).

Definition printable (c : ascii) : bool :=
  let n := nat_of_ascii c in
  negb ((n <? 32) || (127 <=? n) && (n <=? 160) || (n =? 173))%nat.

Definition backslash : ascii := "092".
Definition dquote : ascii := "034".

Definition escape_char (quote c : ascii) : string :=
  if Ascii.eqb c backslash then String backslash (chr backslash)
  else if Ascii.eqb c quote then String backslash (chr quote)
  else if Ascii.eqb c "009" then String backslash "t"
  else if Ascii.eqb c "010" then String backslash "n"
  else if Ascii.eqb c "013" then String backslash "r"
  else if printable c then chr c
  else let n := nat_of_ascii c in
       String backslash (String "x"
         (String (hex_digit (n / 16)) (chr (hex_digit (n mod 16))))).

Fixpoint escape (quote : ascii) (s : string) : string :=
  match s with
  | EmptyString => EmptyString
  | String c s' => escape_char quote c ++ escape quote s'
  end.

Definition str_repr (s : string) : string :=
  let quote : ascii :=
    if str_contains "'" s && negb (str_contains (chr dquote) s)
    then dquote else "'"%char in
  String quote (escape quote s ++ chr quote).

(** ** JSON documents as Python values

    What [json.loads] returns: [None], [bool], [int], [float], [str],
    [list] and [dict].  A [dict] keeps its keys in insertion order and
    holds each key once. *)

#[local] Set Warnings "-register-all".
Inductive json : Type :=
| JNull
| JBool (b : bool)
| JInt (n : Z)
| JFloat (f : spec_float)
| JStr (s : string)
| JArr (items : list json)
| JObj (fields : list (string * json)).

Definition dict : Type := list (string * json).

(** [d.get(key)], [None] standing for a missing key. *)
Fixpoint dict_get (key : string) (d : dict) : option json :=
  match d with
  | [] => None
  | (k, v) :: rest => if String.eqb k key then Some v else dict_get key rest
  end.

(** [key in d]. *)
Definition dict_has (key : string) (d : dict) : bool :=
  match dict_get key d with Some _ => true | None => false end.

(** [d.get(key, default)]. *)
Definition dict_get_default (key : string) (default : json) (d : dict) : json :=
  match dict_get key d with Some v => v | None => default end.

(** [d[key] = v]: an existing key keeps its place. *)
Fixpoint dict_set (key : string) (v : json) (d : dict) : dict :=
  match d with
  | [] => [(key, v)]
  | (k, x) :: rest =>
      if String.eqb k key then (k, v) :: rest
      else (k, x) :: dict_set key v rest
  end.

(** [x.get(key, default)] on any value: only a [dict] has [get]. *)
Definition py_get (x : json) (key : string) (default : json) : result json :=
  match x with
  | JObj d => Ok (dict_get_default key default d)
  | _ => Raise AttributeError
  end.

(** [x[key]] for a string key. *)
Definition py_getitem (x : json) (key : string) : result json :=
  match x with
  | JObj d =>
      match dict_get key d with
      | Some v => Ok v
      | None => Raise (KeyError key)
      end
  | _ => Raise TypeError
  end.

(** [x[0]]. *)
Definition py_first (x : json) : result json :=
  match x with
  | JArr (v :: _) => Ok v
  | JArr [] => Raise IndexError
  | JStr (String c _) => Ok (JStr (chr c))
  | JStr EmptyString => Raise IndexError
  | JObj _ => Raise (KeyError "0")
  | _ => Raise TypeError
  end.

(** Truth value, as [if x] and [x or y] take it. *)
Definition truthy (x : json) : bool :=
  match x with
  | JNull => false
  | JBool b => b
  | JInt n => negb (n =? 0)%Z
  | JFloat (S754_zero _) => false
  | JFloat _ => true
  | JStr s => negb (String.eqb s "")
  | JArr l => match l with [] => false | _ => true end
  | JObj d => match d with [] => false | _ => true end
  end.

Fixpoint py_repr (x : json) : string :=
  match x with
  | JNull => "None"
  | JBool b => if b then "True" else "False"
  | JInt n => str_int n
  | JFloat f => float_repr f
  | JStr s => str_repr s
  | JArr l => "[" ++ str_join ", " (map py_repr l) ++ "]"
  | JObj d =>
      "{" ++ str_join ", "
               (map (fun kv => str_repr (fst kv) ++ ": " ++ py_repr (snd kv)) d)
          ++ "}"
  end.

(** [str(x)], also what an f-string renders. *)
Definition py_str (x : json) : string :=
  match x with
  | JStr s => s
  | _ => py_repr x
  end.

(** The values a [for] loop visits in [x]. *)
Definition py_iter (x : json) : result (list json) :=
  match x with
  | JArr l => Ok l
  | JObj d => Ok (map (fun kv => JStr (fst kv)) d)
  | JStr s => Ok (map (fun c => JStr (chr c)) (list_ascii_of_string s))
  | _ => Raise TypeError
  end.

End Py.

Import Py.

(* ================================================================== *)
(** * tenacity: the [@retry] decorator *)
(* ================================================================== *)

Module Tenacity.

(** [wait_exponential(multiplier, min, max)]: the seconds to sleep after
    attempt number [attempt_number] (counted from 1) has failed. *)
Definition wait_exponential (multiplier min max : Z) (attempt_number : Z) : Z :=
  Z.max (Z.max 0 min) (Z.min (multiplier * 2 ^ (attempt_number - 1)) max).

Section Retry.
Context {W A : Type}.
(** [time.sleep]. *)
Variable sleep : Z -> W -> W.
Variable wait : Z -> Z.

(** The attempts from number [attempt_number] on, when [remaining] more
    may follow it.  Every exception is retried (the decorator is given
    no [retry=] predicate); when the last allowed attempt raises, the
    decorator raises [RetryError] around that exception. *)
Fixpoint attempts (remaining : nat) (attempt_number : Z) (f : io W A)
  : io W A :=
  fun w =>
    match f w with
    | (Ok a, w') => (Ok a, w')
    | (Raise e, w') =>
        match remaining with
        | O => (Raise (RetryError e), w')
        | S remaining' =>
            attempts remaining' (attempt_number + 1) f
                     (sleep (wait attempt_number) w')
        end
    end.

(** [@retry(stop=stop_after_attempt(n), wait=wait)]. *)
Definition retry (stop_after_attempt : nat) (f : io W A) : io W A :=
  attempts (stop_after_attempt - 1) 1 f.
End Retry.

(** The policy written at both decorated methods:
    [stop_after_attempt(3)],
    [wait_exponential(multiplier=1, min=4, max=10)]. *)
Definition retry_3_exponential {W A} (sleep : Z -> W -> W) : io W A -> io W A :=
  retry sleep (wait_exponential 1 4 10) 3.

End Tenacity.

(* ================================================================== *)
(** * src/models/schemas.py *)
(* ================================================================== *)

Module Schemas.

(** A [datetime], as read from the clock. *)
Definition datetime : Type := Z.

(** [MechanicalProperty]; the field [unit] is spelt [unit_]. *)
Record MechanicalProperty : Type := {
  material : string;
  condition : option string;
  property_name : string;
  value : spec_float;
  unit_ : string;
  temperature : option spec_float;
  temperature_unit : option string;
  strain_rate : option spec_float;
  additional_info : option dict
}.

Record PaperMetadata : Type := {
  doi : string;
  title : string;
  authors : list string;
  publication_date : option string;
  journal : option string
}.

Record ExtractedData : Type := {
  paper_metadata : PaperMetadata;
  mechanical_properties : list MechanicalProperty;
  extraction_timestamp : datetime;
  extraction_method : string
}.

Record UnifiedResults : Type := {
  extraction_date : datetime;
  papers_processed : Z;
  total_properties_extracted : Z;
  data : list ExtractedData
}.

(** ** Validation of constructor arguments

    What pydantic does with the keyword arguments of a model, field by
    field, in its default (lax) mode.  A keyword argument is [None] here
    when the key is not passed. *)

(** A field annotated [str]. *)
Definition validate_str (x : json) : result string :=
  match x with
  | JStr s => Ok s
  | _ => Raise ValidationError
  end.

(** A field annotated [Dict[str, Any]]. *)
Definition validate_dict (x : json) : result dict :=
  match x with
  | JObj d => Ok d
  | _ => Raise ValidationError
  end.

Section Validation.
(** How a [float] field reads a [str] argument; pydantic has its own
    reader for it. *)
Variable str_to_float : string -> result spec_float.

(** A field annotated [float]. *)
Definition validate_float (x : json) : result spec_float :=
  match x with
  | JFloat f => Ok f
  | JInt n =>
      match float_of_int n with
      | Ok f => Ok f
      | Raise _ => Raise ValidationError
      end
  | JBool b => Ok (if b then float_of_decimal false 1 0 else S754_zero false)
  | JStr s =>
      match str_to_float s with
      | Ok f => Ok f
      | Raise _ => Raise ValidationError
      end
  | _ => Raise ValidationError
  end.

(** A required field: [Field(...)]. *)
Definition required {T} (validate : json -> result T) (arg : option json)
  : result T :=
  match arg with
  | Some x => validate x
  | None => Raise ValidationError
  end.

(** An [Optional[...]] field with a default. *)
Definition optional {T} (validate : json -> result T) (default : option T)
           (arg : option json) : result (option T) :=
  match arg with
  | None => Ok default
  | Some JNull => Ok None
  | Some x => let* v := validate x in Ok (Some v)
  end.

(** [MechanicalProperty] called with the items of [prop] as keyword
    arguments: keys that name no field are ignored. *)
Definition new_MechanicalProperty (prop : dict) : result MechanicalProperty :=
  let* material := required validate_str (dict_get "material" prop) in
  let* condition := optional validate_str None (dict_get "condition" prop) in
  let* property_name := required validate_str (dict_get "property_name" prop) in
  let* value := required validate_float (dict_get "value" prop) in
  let* unit_ := required validate_str (dict_get "unit" prop) in
  let* temperature :=
    optional validate_float None (dict_get "temperature" prop) in
  let* temperature_unit :=
    optional validate_str None (dict_get "temperature_unit" prop) in
  let* strain_rate :=
    optional validate_float None (dict_get "strain_rate" prop) in
  let* additional_info :=
    optional validate_dict (Some []) (dict_get "additional_info" prop) in
  Ok {| material := material; condition := condition;
        property_name := property_name; value := value; unit_ := unit_;
        temperature := temperature; temperature_unit := temperature_unit;
        strain_rate := strain_rate; additional_info := additional_info |}.
End Validation.

(** A field annotated [List[str]]. *)
Fixpoint validate_strs (items : list json) : result (list string) :=
  match items with
  | [] => Ok []
  | x :: rest =>
      let* s := validate_str x in
      let* ss := validate_strs rest in
      Ok (s :: ss)
  end.

Definition validate_list_str (x : json) : result (list string) :=
  match x with
  | JArr items => validate_strs items
  | _ => Raise ValidationError
  end.

(** [PaperMetadata(doi=, title=, authors=, publication_date=, journal=)];
    [publication_date] arrives as a [str] or [None]. *)
Definition new_PaperMetadata (doi title authors : json)
           (publication_date : option string) (journal : json)
  : result PaperMetadata :=
  let* doi := validate_str doi in
  let* title := validate_str title in
  let* authors := validate_list_str authors in
  let* journal := optional validate_str None (Some journal) in
  Ok {| doi := doi; title := title; authors := authors;
        publication_date := publication_date; journal := journal |}.

End Schemas.

(* ================================================================== *)
(** * src/api/crossref_client.py *)
(* ================================================================== *)

Module CrossrefClient.

Definition BASE_URL : string := "https://api.crossref.org/works".

(** The resolver prefix that [get_metadata] and [download_pdf] remove. *)
Definition DOI_PREFIX : string := "https://doi.org/".

(** [doi.replace('https://doi.org/', '')]. *)
Definition clean_doi (doi : string) : string := str_replace DOI_PREFIX "" doi.

(** A [requests.Response]: its status, and what [.json()] gives. *)
Record Response : Type := {
  status_code : Z;
  json : result Py.json
}.

(** [response.raise_for_status()]. *)
Definition raise_for_status (r : Response) : result unit :=
  if ((400 <=? status_code r) && (status_code r <? 600))%Z
  then Raise (HTTPError (status_code r))
  else Ok tt.

(** The f-string [{self.BASE_URL}/{doi}] for the cleaned [doi]. *)
Definition request_url (doi : string) : string :=
  BASE_URL ++ "/" ++ clean_doi doi.

Section Client.
Context {W : Type}.
Variable sleep : Z -> W -> W.
(** [self.session.get(url)]: answers, or raises (no connection, ...). *)
Variable session_get : string -> io W Response.

(** The body of [get_metadata], one attempt. *)
Definition get_metadata_attempt (doi : string) : io W Py.json :=
  let doi := clean_doi doi in
  let url := BASE_URL ++ "/" ++ doi in
  response <- session_get url ;;
  lift (raise_for_status response) ;;;
  lift (let* body := json response in py_getitem body "message").

(** [get_metadata] as decorated. *)
Definition get_metadata (doi : string) : io W Py.json :=
  Tenacity.retry_3_exponential sleep (get_metadata_attempt doi).
End Client.

(** ** [extract_paper_info] *)

(** The loop over [metadata['author']]. *)
Fixpoint author_names (items : list Py.json) : result (list string) :=
  match items with
  | [] => Ok []
  | author :: rest =>
      let* given := py_get author "given" (JStr "") in
      let* family := py_get author "family" (JStr "") in
      let name := str_strip (py_str given ++ " " ++ py_str family) in
      let* names := author_names rest in
      Ok (if String.eqb name "" then names else name :: names)
  end.

Definition authors_of (metadata : dict) : result (list string) :=
  if dict_has "author" metadata then
    let* author := py_getitem (JObj metadata) "author" in
    let* items := py_iter author in
    author_names items
  else Ok [].

(** [metadata.get(key, [''])[0] if metadata.get(key) else '']. *)
Definition first_or_empty (key : string) (metadata : dict) : result Py.json :=
  if truthy (dict_get_default key JNull metadata)
  then py_first (dict_get_default key (JArr [JStr ""]) metadata)
  else Ok (JStr "").

(** [metadata.get('published-print', {}).get('date-parts', [[None]])[0]]. *)
Definition print_date_of (metadata : dict) : result Py.json :=
  let* parts :=
    py_get (dict_get_default "published-print" (JObj []) metadata)
           "date-parts" (JArr [JArr [JNull]]) in
  py_first parts.

Definition extract_paper_info (metadata : dict) : result dict :=
  let* authors := authors_of metadata in
  let* title := first_or_empty "title" metadata in
  let* publication_date := print_date_of metadata in
  let* journal := first_or_empty "container-title" metadata in
  Ok [ ("doi", dict_get_default "DOI" (JStr "") metadata);
       ("title", title);
       ("authors", JArr (map JStr authors));
       ("publication_date", publication_date);
       ("journal", journal);
       ("publisher", dict_get_default "publisher" (JStr "") metadata);
       ("abstract", dict_get_default "abstract" (JStr "") metadata) ].

(** ** [download_pdf]

    The output directory is part of the world: its entries, in the order
    the directory lists them. *)

Record File : Type := {
  name : string;
  st_mtime : Z;
  content : string
}.

Record World (E : Type) : Type := {
  dir : list File;
  ext : E
}.
Arguments dir {E} w.
Arguments ext {E} w.

(** [output_dir.glob('*' + suffix)]. *)
Definition glob (suffix : string) (d : list File) : list File :=
  filter (fun f => str_endswith suffix (name f)) d.

(** [max(files, key=lambda p: p.stat().st_mtime)] over [best :: files]:
    of several latest files the first listed wins. *)
Fixpoint max_by_mtime (best : File) (files : list File) : File :=
  match files with
  | [] => best
  | f :: rest =>
      if (st_mtime best <? st_mtime f)%Z then max_by_mtime f rest
      else max_by_mtime best rest
  end.

(** [src.rename(dst)] inside the directory: an entry already called
    [dst] is replaced. *)
Definition rename (src dst : string) (d : list File) : list File :=
  map (fun f => if String.eqb (name f) src
                then {| name := dst; st_mtime := st_mtime f; content := content f |}
                else f)
      (filter (fun f => negb (String.eqb (name f) dst)) d).

(** [open(path, 'wb')] and the writes that follow. *)
Definition write_file (fname data : string) (mtime : Z) (d : list File)
  : list File :=
  (filter (fun f => negb (String.eqb (name f) fname)) d
   ++ [ {| name := fname; st_mtime := mtime; content := data |} ])%list.

(** A streamed [requests.Response]: the chunks [iter_content] yields,
    and the exception that ends the stream early, if any. *)
Record StreamResponse : Type := {
  stream_status : Z;
  chunks : list string;
  stream_error : option exn
}.

Definition download_selectors : list string :=
  [ "//button[contains(text(), 'Download PDF')]";
    "//a[contains(text(), 'Download PDF')]";
    "//button[contains(@class, 'download')]//span[contains(text(), 'PDF')]";
    "//div[@class='dropdown-menu show']//a[contains(text(), 'Download PDF')]";
    "//button[@id='download-button']" ].

(** [doi_clean.replace('/', '_') + '.pdf']. *)
Definition pdf_filename (doi_clean : string) : string :=
  str_replace "/" "_" doi_clean ++ ".pdf".

(** The components of a path between its slashes, [current] being the
    component read so far. *)
Fixpoint split_slash (current s : string) : list string :=
  match s with
  | EmptyString => [current]
  | String c s' =>
      if Ascii.eqb c "/" then current :: split_slash "" s'
      else split_slash (current ++ chr c) s'
  end.

(** The parts [pathlib] keeps of a POSIX path: the components that are
    neither empty nor a single dot. *)
Definition path_parts (s : string) : list string :=
  filter (fun part => negb (String.eqb part "" || String.eqb part "."))
         (split_slash "" s).

(** The root of a POSIX path: one slash, or two when the path starts
    with exactly two. *)
Definition path_root (s : string) : string :=
  match s with
  | String "/" (String "/" (String "/" _)) => "/"
  | String "/" (String "/" _) => "//"
  | String "/" _ => "/"
  | _ => ""
  end.

(** [str] of the path with that root and those parts. *)
Definition path_str (root : string) (parts : list string) : string :=
  match root, parts with
  | EmptyString, [] => "."
  | _, _ => root ++ str_join "/" parts
  end.

(** [str(output_dir / filename)] for the path [output_dir]: a [filename]
    with a root stands for itself. *)
Definition path_join (output_dir filename : string) : string :=
  match path_root filename with
  | EmptyString =>
      path_str (path_root output_dir)
               (path_parts output_dir ++ path_parts filename)%list
  | root => path_str root (path_parts filename)
  end.

Definition has_temp_files (d : list File) : bool :=
  match (glob ".crdownload" d ++ glob ".tmp" d)%list with
  | [] => false
  | _ => true
  end.

Section Download.
Context {E Driver Element : Type}.
Let W : Type := World E.
(** [time.sleep]: the browser may write to the directory meanwhile. *)
Variable sleep : Z -> W -> W.
Variable now : W -> Z.
Variable session_get : string -> io W Response.
(** [self.session.get(url, stream=True, headers=...)]. *)
Variable session_get_stream : string -> io W StreamResponse.
(** [output_dir.mkdir(parents=True, exist_ok=True)]. *)
Variable mkdir : string -> io W unit.
(** [webdriver.Chrome(options=...)] for a download directory. *)
Variable Chrome : string -> io W Driver.
Variable driver_get : Driver -> string -> io W unit.
(** [WebDriverWait(driver, 10).until(EC.element_to_be_clickable(
    (By.XPATH, xpath)))]. *)
Variable wait_clickable : Driver -> string -> io W Element.
Variable find_element : Driver -> string -> io W Element.
Variable click : Element -> io W unit.
Variable current_url : Driver -> io W string.
Variable driver_quit : Driver -> io W unit.

Definition do_sleep (seconds : Z) : io W unit :=
  fun w => (Ok tt, sleep seconds w).

(** The loop over [download_selectors]: the first selector whose
    element becomes clickable and takes the click ends it. *)
Fixpoint try_selectors (driver : Driver) (selectors : list string)
  : io W bool :=
  match selectors with
  | [] => ret false
  | selector :: rest =>
      try_except
        (download_button <- wait_clickable driver selector ;;
         click download_button ;;;
         ret true)
        (fun _ => try_selectors driver rest)
  end.

(** The dropdown first, the direct buttons when it raises. *)
Definition click_download (driver : Driver) : io W bool :=
  try_except
    (download_dropdown <-
       wait_clickable driver "//button[contains(text(), 'Download')]" ;;
     click download_dropdown ;;;
     do_sleep 1 ;;;
     pdf_option <-
       find_element driver "//a[contains(text(), 'Download PDF')]" ;;
     click pdf_option ;;;
     ret true)
    (fun _ => try_selectors driver download_selectors).

(** [if not download_clicked:] the direct URL on a known domain. *)
Definition try_direct_url (driver : Driver) (download_clicked : bool)
  : io W bool :=
  if download_clicked then ret true
  else
    url <- current_url driver ;;
    if str_contains "mdpi.com" url
    then driver_get driver (str_rstrip_char "/" url ++ "/pdf") ;;; ret true
    else ret false.

(** The [while temp_files and wait_time < max_wait] loop, [remaining]
    being [max_wait - wait_time]. *)
Fixpoint wait_for_download (remaining : nat) (w : W) : W :=
  match remaining with
  | O => w
  | S remaining' =>
      if has_temp_files (dir w)
      then wait_for_download remaining' (sleep 1 w)
      else w
  end.

(** [if download_clicked:] wait, then take the latest PDF of the
    directory.  [Some path] is the [return output_path]; [None] leaves
    the block without returning. *)
Definition collect_download (output_dir filename : string)
  : io W (option string) :=
  fun w =>
    let w := wait_for_download 30 (sleep 5 w) in
    match glob ".pdf" (dir w) with
    | first :: rest =>
        let latest_pdf := max_by_mtime first rest in
        let w :=
          if negb (String.eqb (name latest_pdf) filename)
          then {| dir := rename (name latest_pdf) filename (dir w);
                  ext := ext w |}
          else w in
        (Ok (Some (path_join output_dir filename)), w)
    | [] => (Ok None, w)
    end.

(** The [try] block once the driver exists. *)
Definition interactive (driver : Driver) (doi_clean output_dir filename : string)
  : io W (option string) :=
  driver_get driver ("https://doi.org/" ++ doi_clean) ;;;
  download_clicked <- click_download driver ;;
  download_clicked <- try_direct_url driver download_clicked ;;
  if download_clicked then collect_download output_dir filename
  else ret None.

(** [_download_pdf_requests_fallback].  A [metadata] that is no mapping,
    has no ['URL'] or holds no string there either skips the download
    or raises inside the [try]; each way ends in [return None]. *)
Definition _download_pdf_requests_fallback (doi output_dir filename : string)
  : io W (option string) :=
  if str_contains "10.3390" doi then
    try_except
      (metadata <- get_metadata sleep session_get doi ;;
       match metadata with
       | JObj d =>
           match dict_get "URL" d with
           | Some (JStr base_url) =>
               let pdf_url := str_rstrip_char "/" base_url ++ "/pdf" in
               response <- session_get_stream pdf_url ;;
               (if ((400 <=? stream_status response)
                    && (stream_status response <? 600))%Z
                then raise (HTTPError (stream_status response))
                else ret tt) ;;;
               (fun w =>
                  (Ok tt,
                   {| dir := write_file filename
                               (String.concat "" (chunks response))
                               (now w) (dir w);
                      ext := ext w |})) ;;;
               match stream_error response with
               | Some e => raise e
               | None => ret (Some (path_join output_dir filename))
               end
           | _ => ret None
           end
       | _ => ret None
       end)
      (fun _ => ret None)
  else ret None.

Definition download_pdf (doi output_dir : string) : io W (option string) :=
  let doi_clean := clean_doi doi in
  mkdir output_dir ;;;
  let filename := pdf_filename doi_clean in
  fun w =>
    match Chrome output_dir w with
    | (Raise _, w) =>
        _download_pdf_requests_fallback doi_clean output_dir filename w
    | (Ok driver, w) =>
        (returned <-
           try_finally
             (try_except (interactive driver doi_clean output_dir filename)
                         (fun _ => ret None))
             (driver_quit driver) ;;
         match returned with
         | Some output_path => ret (Some output_path)
         | None =>
             _download_pdf_requests_fallback doi_clean output_dir filename
         end) w
    end.
End Download.

End CrossrefClient.

(* ================================================================== *)
(** * src/extractors/llm_extractor.py *)
(* ================================================================== *)

Module LLMExtractor.
Import Schemas.

Definition system_prompt : string :=
"You are an expert materials scientist tasked with extracting mechanical property data from academic papers. 
        Focus on finding tabular data that reports mechanical properties such as:
        - Tensile strength (UTS, YS)
        - Hardness (HV, HB, etc.)
        - Elongation
        - Young's modulus
        - Yield strength
        - Other mechanical properties

        Extract ONLY data that appears in tables, not from the text discussion.
        For each property found, provide:
        1. Material/alloy composition
        2. Processing condition or treatment (if mentioned)
        3. Property name
        4. Numerical value
        5. Unit of measurement
        6. Test temperature (if mentioned)
        7. Any other relevant parameters

        Return the data as a JSON array of objects.".

Definition user_prompt (title text : string) : string :=
"Paper Title: " ++ title ++ "

Please extract all mechanical property data from the tables in this paper. Focus on finding structured tabular data.

Paper text:
" ++ str_take 8000 text ++ "  # Limit text to avoid token limits

Return the extracted data as a JSON array. Each object should have these fields:
- material: string (material or alloy composition)
- condition: string or null (processing condition)
- property_name: string
- value: number
- unit: string
- temperature: number or null
- temperature_unit: string or null
- strain_rate: number or null
- additional_info: object (any other parameters)
".

(** [paper_metadata.model_dump()]. *)
Definition model_dump_PaperMetadata (m : PaperMetadata) : dict :=
  let opt (o : option string) :=
    match o with Some s => JStr s | None => JNull end in
  [ ("doi", JStr (doi m));
    ("title", JStr (title m));
    ("authors", JArr (map JStr (authors m)));
    ("publication_date", opt (publication_date m));
    ("journal", opt (journal m)) ].

(** The first value of the mapping that is a [list]. *)
Fixpoint first_list_value (d : dict) : option Py.json :=
  match d with
  | [] => None
  | (_, JArr l) :: _ => Some (JArr l)
  | _ :: rest => first_list_value rest
  end.

(** The part of [extract_properties] under the comment
    [# Handle different response formats], with the [return []] that
    follows it. *)
Definition handle_response_format (data : Py.json) : Py.json :=
  match data with
  | JObj d =>
      if dict_has "properties" d then dict_get_default "properties" JNull d
      else if dict_has "data" d then dict_get_default "data" JNull d
      else match first_list_value d with
           | Some v => v
           | None => JArr []
           end
  | JArr l => JArr l
  | _ => JArr []
  end.

Section Extractor.
Context {W : Type}.
Variable sleep : Z -> W -> W.
(** [datetime.now()]. *)
Variable now : W -> datetime.
(** The pages of a PDF file, each as [page.extract_text()] gives it;
    raises when the file cannot be opened or read. *)
Variable read_pdf_pages : string -> io W (list string).
(** [self.client.chat.completions.create] for a model name, the system
    and the user message (temperature 0.1, response format
    [json_object]): the [message.content] of every choice. *)
Variable chat_completions_create :
  string -> string -> string -> io W (list (option string)).
(** [json.loads] on a [str]. *)
Variable json_loads : string -> result Py.json.
(** pydantic's reading of a [str] passed for a [float] field. *)
Variable str_to_float : string -> result spec_float.
(** [self.model]. *)
Variable model : string.

Definition extract_text_from_pdf (pdf_path : string) : io W string :=
  pages <- read_pdf_pages pdf_path ;;
  ret (fold_left (fun text page => text ++ page ++ chr "010") pages "").

(** [response.choices[0].message.content], then [json.loads]. *)
Definition parse_content (choices : list (option string)) : result Py.json :=
  match choices with
  | [] => Raise IndexError
  | None :: _ => Raise TypeError
  | Some content :: _ => json_loads content
  end.

(** The body of [extract_properties], one attempt: the [try] block and
    its [except Exception] with [return []]. *)
Definition extract_properties_attempt (text : string) (paper_info : dict)
  : io W Py.json :=
  let title := py_str (dict_get_default "title" (JStr "Unknown") paper_info) in
  try_except
    (choices <- chat_completions_create model system_prompt
                                        (user_prompt title text) ;;
     data <- lift (parse_content choices) ;;
     ret (handle_response_format data))
    (fun _ => ret (JArr [])).

(** [extract_properties] as decorated. *)
Definition extract_properties (text : string) (paper_info : dict)
  : io W Py.json :=
  Tenacity.retry_3_exponential sleep (extract_properties_attempt text paper_info).

(** The [try] block of the loop over [raw_properties]. *)
Definition convert_property (prop : Py.json) : result MechanicalProperty :=
  let* v := py_get prop "value" JNull in
  match prop with
  | JObj d =>
      let* d :=
        match v with
        | JStr s =>
            let* f := float_of_str (str_replace "," "" s) in
            Ok (dict_set "value" (JFloat f) d)
        | _ => Ok d
        end in
      new_MechanicalProperty str_to_float d
  | _ => Raise AttributeError
  end.

(** The loop: a record whose conversion raises is skipped. *)
Fixpoint convert_properties (raw : list Py.json) : list MechanicalProperty :=
  match raw with
  | [] => []
  | prop :: rest =>
      match convert_property prop with
      | Ok p => p :: convert_properties rest
      | Raise _ => convert_properties rest
      end
  end.

Definition extract_from_paper (pdf_path : string) (paper_metadata : PaperMetadata)
  : io W ExtractedData :=
  text <- extract_text_from_pdf pdf_path ;;
  raw_properties <-
    extract_properties text (model_dump_PaperMetadata paper_metadata) ;;
  raw <- lift (py_iter raw_properties) ;;
  let properties := convert_properties raw in
  fun w =>
    (Ok {| paper_metadata := paper_metadata;
           mechanical_properties := properties;
           extraction_timestamp := now w;
           extraction_method := "llm" |}, w).
End Extractor.

End LLMExtractor.

(* ================================================================== *)
(** * src/main.py *)
(* ================================================================== *)

Module Main.
Import Schemas.

(** A paper descriptor: an entry of [PAPERS]. *)
Record Paper : Type := {
  paper_doi : string;
  paper_title : string
}.

Definition PAPERS : list Paper :=
  [ {| paper_doi := "https://doi.org/10.3390/cryst9110586";
       paper_title := "Effect of ECAP on the Microstructure and Mechanical Properties of a Rolled Mg-2Y-0.6Nd-0.6Zr Magnesium Alloy" |};
    {| paper_doi := "https://doi.org/10.3390/met14111217";
       paper_title := "Investigation of Mechanical Properties and Microstructural Evolution in Pure Copper with Dual Heterostructures Produced by Surface Mechanical Attrition Treatment" |} ].

(** [str(extracted_info['publication_date'][0])
     if extracted_info['publication_date'] else None]. *)
Definition publication_date_arg (publication_date : Py.json)
  : result (option string) :=
  if truthy publication_date
  then let* part := py_first publication_date in Ok (Some (py_str part))
  else Ok None.

(** The [PaperMetadata(...)] call of [process_papers]. *)
Definition make_paper_metadata (extracted_info : dict) : result PaperMetadata :=
  let info := JObj extracted_info in
  let* doi := py_getitem info "doi" in
  let* title := py_getitem info "title" in
  let* authors := py_getitem info "authors" in
  let* publication_date := py_getitem info "publication_date" in
  let* publication_date := publication_date_arg publication_date in
  let* journal := py_getitem info "journal" in
  new_PaperMetadata doi title authors publication_date journal.

(** [extract_paper_info] on what [get_metadata] returned; a value that
    is no mapping makes it raise ([TypeError] or [AttributeError]). *)
Definition extract_paper_info_of (metadata : Py.json) : result dict :=
  match metadata with
  | JObj d => CrossrefClient.extract_paper_info d
  | _ => Raise TypeError
  end.

Section Orchestrator.
Context {W : Type}.
(** The methods of [crossref_client] and [llm_extractor] that
    [process_papers] calls. *)
Variable get_metadata : string -> io W Py.json.
Variable download_pdf : string -> string -> io W (option string).
Variable extract_from_paper : string -> PaperMetadata -> io W ExtractedData.

Definition pdf_dir : string := "data/pdfs".

(** The [try] block for one paper: [None] is the [continue] after a
    download that gave no path. *)
Definition process_paper (paper_info : Paper) : io W (option ExtractedData) :=
  metadata <- get_metadata (paper_doi paper_info) ;;
  extracted_info <- lift (extract_paper_info_of metadata) ;;
  paper_metadata <- lift (make_paper_metadata extracted_info) ;;
  pdf_path <- download_pdf (paper_doi paper_info) pdf_dir ;;
  match pdf_path with
  | None => ret None
  | Some pdf_path =>
      extracted_data <- extract_from_paper pdf_path paper_metadata ;;
      ret (Some extracted_data)
  end.

(** The [for paper_info in PAPERS] loop over any sequence of
    descriptors, [results] being the list built so far. *)
Fixpoint process_each (papers : list Paper) (results : list ExtractedData)
         (w : W) : list ExtractedData * W :=
  match papers with
  | [] => (results, w)
  | paper_info :: rest =>
      match process_paper paper_info w with
      | (Ok (Some extracted_data), w') =>
          process_each rest (results ++ [extracted_data])%list w'
      | (Ok None, w') => process_each rest results w'
      | (Raise _, w') => process_each rest results w'
      end
  end.

(** [LLMExtractor()], for the key found in the environment. *)
Definition new_LLMExtractor (api_key : option string) : result unit :=
  match api_key with
  | Some (String _ _) => Ok tt
  | _ => Raise ValueError
  end.

Variable api_key : option string.
Variable mkdir : string -> io W unit.

(** What [process_papers] does before its loop: the two clients, the
    two directories. *)
Definition setup : io W unit :=
  lift (new_LLMExtractor api_key) ;;;
  mkdir pdf_dir ;;;
  mkdir "output".

Definition process_papers_over (papers : list Paper)
  : io W (list ExtractedData) :=
  setup ;;;
  fun w => let (results, w') := process_each papers [] w in (Ok results, w').

Definition process_papers : io W (list ExtractedData) :=
  process_papers_over PAPERS.
End Orchestrator.

(** ** [save_results] *)

(** [sum(len(r.mechanical_properties) for r in results)]. *)
Definition total_properties (results : list ExtractedData) : Z :=
  fold_left (fun acc r => (acc + Z.of_nat (List.length (mechanical_properties r)))%Z)
            results 0%Z.

(** The [UnifiedResults(...)] call, at the instant [now]. *)
Definition unify (now : datetime) (results : list ExtractedData)
  : UnifiedResults :=
  {| extraction_date := now;
     papers_processed := Z.of_nat (List.length results);
     total_properties_extracted := total_properties results;
     data := results |}.

Section Dump.
(** [str] of a [datetime], which [json.dump] is given as [default]. *)
Variable str_datetime : datetime -> string.

Definition dump_opt {T} (f : T -> Py.json) (o : option T) : Py.json :=
  match o with Some x => f x | None => JNull end.

Definition dump_MechanicalProperty (p : MechanicalProperty) : Py.json :=
  JObj [ ("material", JStr (material p));
         ("condition", dump_opt JStr (condition p));
         ("property_name", JStr (property_name p));
         ("value", JFloat (value p));
         ("unit", JStr (unit_ p));
         ("temperature", dump_opt JFloat (temperature p));
         ("temperature_unit", dump_opt JStr (temperature_unit p));
         ("strain_rate", dump_opt JFloat (strain_rate p));
         ("additional_info", dump_opt JObj (additional_info p)) ].

Definition dump_ExtractedData (r : ExtractedData) : Py.json :=
  JObj [ ("paper_metadata",
          JObj (LLMExtractor.model_dump_PaperMetadata (paper_metadata r)));
         ("mechanical_properties",
          JArr (map dump_MechanicalProperty (mechanical_properties r)));
         ("extraction_timestamp", JStr (str_datetime (extraction_timestamp r)));
         ("extraction_method", JStr (extraction_method r)) ].

(** The document [json.dump(unified.model_dump(), f, default=str)]
    writes, before it is laid out as text. *)
Definition dump_UnifiedResults (u : UnifiedResults) : dict :=
  [ ("extraction_date", JStr (str_datetime (extraction_date u)));
    ("papers_processed", JInt (papers_processed u));
    ("total_properties_extracted", JInt (total_properties_extracted u));
    ("data", JArr (map dump_ExtractedData (data u))) ].

Context {W : Type}.
Variable now : W -> datetime.
(** The layout of a document as text, indented by 2. *)
Variable json_dumps : Py.json -> string.
(** [open(path, 'w')] and the write of the whole text. *)
Variable write_text : string -> string -> io W unit.

(** [save_results]: the [UnifiedResults] it builds stays local to the
    Python function; the model returns it. *)
Definition save_results (results : list ExtractedData) (output_path : string)
  : io W UnifiedResults :=
  fun w =>
    let unified := unify (now w) results in
    (write_text output_path (json_dumps (JObj (dump_UnifiedResults unified))) ;;;
     ret unified) w.
End Dump.

(** ** [main] *)

Section Entry.
Context {W : Type}.
(** [process_papers] and [save_results] as [main] calls them. *)
Variable process_papers : io W (list ExtractedData).
Variable save_results : list ExtractedData -> string -> io W UnifiedResults.

Definition main : io W unit :=
  results <- process_papers ;;
  let output_path := "output/results.json" in
  save_results results output_path ;;;
  ret tt.
End Entry.

End Main.

(* ================================================================== *)
(** * Vocabulary of the properties *)
(* ================================================================== *)

Module Vocabulary.

(** The two statements of [process_papers] that turn the catalog's
    document into the [PaperMetadata]. *)
Definition paper_metadata_for (metadata : dict) : result Schemas.PaperMetadata :=
  let* extracted_info := CrossrefClient.extract_paper_info metadata in
  Main.make_paper_metadata extracted_info.

(** The wording of C7 in the specification: the first [date-parts] entry of the
    print-publication date rendered as a string, absent when there is no
    print-publication date. *)
Definition stated_publication_date (metadata : dict) : option string :=
  match dict_get "published-print" metadata with
  | Some (JObj print_date) =>
      match dict_get "date-parts" print_date with
      | Some (JArr (entry :: _)) => Some (py_str entry)
      | _ => None
      end
  | _ => None
  end.

(** ** The shape of a catalog document *)

Definition is_object (x : Py.json) : bool :=
  match x with JObj _ => true | _ => false end.

Definition is_array (x : Py.json) : bool :=
  match x with JArr _ => true | _ => false end.

Definition is_nonempty_array (x : Py.json) : bool :=
  match x with JArr (_ :: _) => true | _ => false end.

(** The field [key] is missing or passes [ok]. *)
Definition field_ok (key : string) (ok : Py.json -> bool) (d : dict) : bool :=
  match dict_get key d with
  | Some v => ok v
  | None => true
  end.

(** A metadata document has the catalog's shape in the fields
    [extract_paper_info] looks into: [author], when present, is a list of
    objects; [title] and [container-title], when present, are lists;
    [published-print], when present, is an object whose [date-parts],
    when present, is a list with at least one entry. *)
Definition catalog_shaped (metadata : dict) : bool :=
  field_ok "author"
           (fun v => match v with JArr l => forallb is_object l | _ => false end)
           metadata
  && field_ok "title" is_array metadata
  && field_ok "container-title" is_array metadata
  && field_ok "published-print"
              (fun v => match v with
                        | JObj print_date =>
                            field_ok "date-parts" is_nonempty_array print_date
                        | _ => false
                        end)
              metadata.

(** The float 1234.5, which is [2469 / 2]. *)
Definition float_1234_5 : spec_float := S754_finite false 5429388417957888 (-42).

(** ** Failure of one paper *)

Section Failure.
Context {W : Type}.
Variable get_metadata : string -> io W Py.json.
Variable download_pdf : string -> string -> io W (option string).
Variable extract_from_paper :
  string -> Schemas.PaperMetadata -> io W Schemas.ExtractedData.

(** [paper_fails paper w w']: started in the world [w], the processing of
    [paper] fails at some stage and leaves the world [w']. *)
Inductive paper_fails (paper : Main.Paper) (w : W) : W -> Prop :=
| metadata_fetch_raises e w1 :
    get_metadata (Main.paper_doi paper) w = (Raise e, w1) ->
    paper_fails paper w w1
| paper_info_raises metadata e w1 :
    get_metadata (Main.paper_doi paper) w = (Ok metadata, w1) ->
    (let* info := Main.extract_paper_info_of metadata in
     Main.make_paper_metadata info) = Raise e ->
    paper_fails paper w w1
| download_raises metadata paper_metadata e w1 w2 :
    get_metadata (Main.paper_doi paper) w = (Ok metadata, w1) ->
    (let* info := Main.extract_paper_info_of metadata in
     Main.make_paper_metadata info) = Ok paper_metadata ->
    download_pdf (Main.paper_doi paper) Main.pdf_dir w1 = (Raise e, w2) ->
    paper_fails paper w w2
| download_absent metadata paper_metadata w1 w2 :
    get_metadata (Main.paper_doi paper) w = (Ok metadata, w1) ->
    (let* info := Main.extract_paper_info_of metadata in
     Main.make_paper_metadata info) = Ok paper_metadata ->
    download_pdf (Main.paper_doi paper) Main.pdf_dir w1 = (Ok None, w2) ->
    paper_fails paper w w2
| extraction_raises metadata paper_metadata pdf_path e w1 w2 w3 :
    get_metadata (Main.paper_doi paper) w = (Ok metadata, w1) ->
    (let* info := Main.extract_paper_info_of metadata in
     Main.make_paper_metadata info) = Ok paper_metadata ->
    download_pdf (Main.paper_doi paper) Main.pdf_dir w1 = (Ok (Some pdf_path), w2) ->
    extract_from_paper pdf_path paper_metadata w2 = (Raise e, w3) ->
    paper_fails paper w w3.

End Failure.

(** ** The output directory during [download_pdf] *)

Section Directory.
Context {E : Type}.
Variable sleep : Z -> CrossrefClient.World E -> CrossrefClient.World E.

(** The directory once the waiting is over. *)
Definition settled (w : CrossrefClient.World E) : CrossrefClient.World E :=
  CrossrefClient.wait_for_download sleep 30 (sleep 5 w).

(** The world after the latest PDF has got the canonical name. *)
Definition collected (filename : string) (latest : CrossrefClient.File)
           (w : CrossrefClient.World E) : CrossrefClient.World E :=
  if negb (String.eqb (CrossrefClient.name latest) filename)
  then {| CrossrefClient.dir :=
            CrossrefClient.rename (CrossrefClient.name latest) filename
                                  (CrossrefClient.dir w);
          CrossrefClient.ext := CrossrefClient.ext w |}
  else w.

End Directory.

End Vocabulary.

Import Vocabulary.

(* ================================================================== *)
(** * Test doubles

    Concrete worlds in which the code can be run: the log of the calls
    made to the outside, latest first, and services with fixed answers. *)
(* ================================================================== *)

Module Scenario.

Inductive event : Type :=
| Requested (url : string)
| Slept (seconds : Z)
| Asked (model user_message : string).

Definition log : Type := list event.

Definition sleep (seconds : Z) (w : log) : log := Slept seconds :: w.

Definition requests (w : log) : nat :=
  List.length (filter (fun e => match e with Requested _ => true | _ => false end) w).

Definition questions (w : log) : nat :=
  List.length (filter (fun e => match e with Asked _ _ => true | _ => false end) w).

(** A catalog that answers every request with the status [status] and
    the body [body]. *)
Definition catalog (status : Z) (body : result Py.json)
  : string -> io log CrossrefClient.Response :=
  fun url w =>
    (Ok {| CrossrefClient.status_code := status; CrossrefClient.json := body |},
     Requested url :: w).

(** A catalog that knows no identifier. *)
Definition catalog_404 : string -> io log CrossrefClient.Response :=
  catalog 404 (Raise JSONDecodeError).

(** A reasoning service that is down. *)
Definition service_down : string -> string -> string -> io log (list (option string)) :=
  fun model _ user w => (Raise APIError, Asked model user :: w).

(** A catalog that knows every identifier but those with [unknown] in
    them, and describes each by the same record. *)
Definition catalog_some : string -> io log CrossrefClient.Response :=
  fun url =>
    if str_contains "unknown" url then catalog_404 url
    else catalog 200
           (Ok (JObj [("status", JStr "ok");
                      ("message",
                       JObj [("DOI", JStr "10.3390/cryst9110586");
                             ("title", JArr [JStr "Effect of ECAP"]);
                             ("published-print",
                              JObj [("date-parts",
                                     JArr [JArr [JInt 2019; JInt 11; JInt 8]])])])]))
           url.

(** A retriever that finds every PDF. *)
Definition download_found (doi output_dir : string) : io log (option string) :=
  ret (Some (output_dir ++ "/paper.pdf")).

(** An extractor that finds no property. *)
Definition extract_nothing (pdf_path : string) (m : Schemas.PaperMetadata)
  : io log Schemas.ExtractedData :=
  ret {| Schemas.paper_metadata := m;
         Schemas.mechanical_properties := [];
         Schemas.extraction_timestamp := 0%Z;
         Schemas.extraction_method := "llm" |}.

Definition mkdir_ok (path : string) : io log unit := ret tt.

(** A document as the catalog sends it for the first paper of [PAPERS],
    cut down to the fields read here. *)
Definition cryst9110586 : dict :=
  [ ("DOI", JStr "10.3390/cryst9110586");
    ("title", JArr [JStr "Effect of ECAP on the Microstructure"]);
    ("author", JArr [JObj [("given", JStr "Jiahuan"); ("family", JStr "He")]]);
    ("published-print",
     JObj [("date-parts", JArr [JArr [JInt 2019; JInt 11; JInt 8]])]);
    ("container-title", JArr [JStr "Crystals"]) ].

(** A world with the output directory in it and nothing else to
    remember. *)
Definition disk : Type := CrossrefClient.World unit.

(** A browser that downloads nothing: time passes and the directory
    stays as it is. *)
Definition idle (seconds : Z) (w : disk) : disk := w.

(** Pages on which every element is found and takes the click. *)
Definition found {A} (a : A) : io disk A := ret a.

Definition clock (w : disk) : Z := 1700000500%Z.

Definition no_stream (url : string) : io disk CrossrefClient.StreamResponse :=
  raise ConnectionError.

Definition no_catalog (url : string) : io disk CrossrefClient.Response :=
  raise ConnectionError.

(** The output directory after the first paper of [PAPERS] has been
    downloaded. *)
Definition leftover : disk :=
  {| CrossrefClient.dir :=
       [ {| CrossrefClient.name := "10.3390_cryst9110586.pdf";
            CrossrefClient.st_mtime := 1700000000%Z;
            CrossrefClient.content := "%PDF-1.7 cryst9110586" |} ];
     CrossrefClient.ext := tt |}.

End Scenario.

(* ================================================================== *)
(** * Worlds that remember, and more doubles

    The log of [Scenario] as the world of a catalog with any behaviour:
    what it answers may depend on the address and on everything asked
    and slept before.  Then the names and the services the further
    properties speak of. *)
(* ================================================================== *)

Module History.

Section Answers.
Variable answers : Scenario.log -> string -> result CrossrefClient.Response.

Definition session_get (url : string) : io Scenario.log CrossrefClient.Response :=
  fun w => (answers w url, Scenario.Requested url :: w).
End Answers.

(** The seconds slept so far. *)
Fixpoint slept (w : Scenario.log) : Z :=
  match w with
  | [] => 0%Z
  | Scenario.Slept seconds :: w' => (seconds + slept w')%Z
  | _ :: w' => slept w'
  end.

(** The field names of [MechanicalProperty], as its constructor reads
    them from the keyword arguments. *)
Definition MechanicalProperty_fields : list string :=
  [ "material"; "condition"; "property_name"; "value"; "unit";
    "temperature"; "temperature_unit"; "strain_rate"; "additional_info" ].

(** The fields declared with [Field(...)], without a default. *)
Definition MechanicalProperty_required : list string :=
  [ "material"; "property_name"; "value"; "unit" ].

Section Seconds.
Context {E : Type}.
Variable sleep : Z -> CrossrefClient.World E -> CrossrefClient.World E.

(** [k] sleeps of one second, one after the other. *)
Fixpoint seconds_later (k : nat) (w : CrossrefClient.World E)
  : CrossrefClient.World E :=
  match k with
  | O => w
  | S k' => seconds_later k' (sleep 1 w)
  end.
End Seconds.

(** A browser that cannot be started, or closed. *)
Definition broken {A} (a : A) : io Scenario.disk A := raise WebDriverException.

(** A catalog that knows the landing page of the second paper of
    [PAPERS]. *)
Definition catalog_with_url (url : string) : io Scenario.disk CrossrefClient.Response :=
  ret {| CrossrefClient.status_code := 200;
         CrossrefClient.json :=
           Ok (JObj [("message",
                      JObj [("URL", JStr "https://www.mdpi.com/2075-4701/14/11/1217/")])]) |}.

(** A publisher whose stream breaks after two chunks. *)
Definition stream_breaks (url : string) : io Scenario.disk CrossrefClient.StreamResponse :=
  ret {| CrossrefClient.stream_status := 200;
         CrossrefClient.chunks := ["%PDF-1.7 met"; "14111217"];
         CrossrefClient.stream_error := Some ConnectionError |}.

(** The output directory with the second paper stored and a newer
    download beside it. *)
Definition stored_and_newer : Scenario.disk :=
  {| CrossrefClient.dir :=
       [ {| CrossrefClient.name := "10.3390_met14111217.pdf";
            CrossrefClient.st_mtime := 1700000000%Z;
            CrossrefClient.content := "%PDF-1.7 first version" |};
         {| CrossrefClient.name := "metals-14-01217.pdf";
            CrossrefClient.st_mtime := 1700000400%Z;
            CrossrefClient.content := "%PDF-1.7 second version" |} ];
     CrossrefClient.ext := tt |}.

(** The text of a PDF: its pages in order, a line feed after each. *)
Definition text_of (pages : list string) : string :=
  String.concat "" (map (fun page => page ++ chr "010") pages).

(** The metadata of a paper, as [process_papers] builds it. *)
Definition copper : Schemas.PaperMetadata :=
  {| Schemas.doi := "10.3390/met14111217";
     Schemas.title := "Pure Copper with Dual Heterostructures";
     Schemas.authors := ["Bo Yang"];
     Schemas.publication_date := Some "2024";
     Schemas.journal := Some "Metals" |}.

(** A parser that finds the document [data] in every text. *)
Definition loads_as (data : Py.json) (text : string) : result Py.json := Ok data.

(** A reader of PDF files that finds the same pages in every file. *)
Definition pdf_with (pages : list string) (path : string)
  : io Scenario.log (list string) := ret pages.

(** A reasoning service that answers every question with [content]. *)
Definition service_says (content : option string)
  : string -> string -> string -> io Scenario.log (list (option string)) :=
  fun model _ user w => (Ok [content], Scenario.Asked model user :: w).

End History.

(* ================================================================== *)
(** * Properties *)
(* ================================================================== *)

(** ** Strings *)

Lemma prefix_app (p s : string) : prefix p (p ++ s) = true.
Proof.
  induction p as [|c p IH]; simpl.
  - now destruct s.
  - destruct (ascii_dec c c) as [_|ne]; [exact IH | now elim ne].
Qed.

Lemma str_app_nil (s : string) : s ++ "" = s.
Proof. induction s as [|c s IH]; cbn; [reflexivity | now rewrite IH]. Qed.

Lemma str_app_assoc (s t u : string) : (s ++ t) ++ u = s ++ (t ++ u).
Proof. induction s as [|c s IH]; cbn; [reflexivity | now rewrite IH]. Qed.

Lemma str_rev_onto_app (s acc : string) :
  str_rev_onto s acc = str_rev s ++ acc.
Proof.
  unfold str_rev. revert acc.
  induction s as [|c s IH]; intros acc; cbn.
  - reflexivity.
  - rewrite (IH (String c acc)), (IH (String c "")).
    now rewrite str_app_assoc.
Qed.

Lemma str_rev_cons (c : ascii) (s : string) :
  str_rev (String c s) = str_rev s ++ String c "".
Proof. unfold str_rev at 1. cbn. apply str_rev_onto_app. Qed.

Lemma str_rev_app (s t : string) : str_rev (s ++ t) = str_rev t ++ str_rev s.
Proof.
  induction s as [|c s IH].
  - cbn. now rewrite str_app_nil.
  - change (String c s ++ t) with (String c (s ++ t)).
    now rewrite !str_rev_cons, IH, str_app_assoc.
Qed.

Lemma str_rev_involutive (s : string) : str_rev (str_rev s) = s.
Proof.
  induction s as [|c s IH]; [reflexivity|].
  now rewrite str_rev_cons, str_rev_app, IH.
Qed.

Lemma prefix_split (p t : string) :
  prefix p t = true -> exists r, t = p ++ r.
Proof.
  revert t. induction p as [|c p IH]; intros t.
  - intros _. now exists t.
  - destruct t as [|d t]; cbn; [intros H; discriminate H|].
    destruct (ascii_dec c d) as [<-|_]; [|intros H; discriminate H].
    intros H. destruct (IH t H) as [r ->]. now exists r.
Qed.

Lemma str_endswith_app (suffix stem : string) :
  str_endswith suffix (stem ++ suffix) = true.
Proof. unfold str_endswith. rewrite str_rev_app. apply prefix_app. Qed.

Lemma str_endswith_split (suffix s : string) :
  str_endswith suffix s = true -> exists stem, s = stem ++ suffix.
Proof.
  unfold str_endswith. intros H.
  destruct (prefix_split _ _ H) as [r Hr].
  exists (str_rev r).
  rewrite <- (str_rev_involutive s), Hr, str_rev_app.
  now rewrite str_rev_involutive.
Qed.

Lemma replace_from_skip (old new r s : string) :
  replace_from old new (String.length r) (r ++ s) = replace_from old new 0 s.
Proof.
  induction r as [|c r IH]; simpl.
  - reflexivity.
  - exact IH.
Qed.

(** An occurrence of [old] at the very start is replaced, and the scan
    goes on behind it. *)
Lemma str_replace_leading (c : ascii) (old' new s : string) :
  str_replace (String c old') new (String c old' ++ s)
  = new ++ str_replace (String c old') new s.
Proof.
  unfold str_replace.
  change (String c old' ++ s) with (String c (old' ++ s)).
  cbn [replace_from].
  change (String c (old' ++ s)) with (String c old' ++ s).
  rewrite prefix_app.
  replace (String.length (String c old') - 1)%nat with (String.length old')
    by (simpl; lia).
  now rewrite replace_from_skip.
Qed.

(** A string in which [old] starts nowhere is left as it is. *)
Lemma str_replace_absent (old new s : string) :
  str_contains old s = false -> str_replace old new s = s.
Proof.
  unfold str_replace.
  induction s as [|c s IH]; intros H.
  - reflexivity.
  - cbn [str_contains] in H. apply orb_false_iff in H as [Hp Hs].
    cbn [replace_from]. rewrite Hp. now rewrite IH.
Qed.

(** ** The identifier forms of [get_metadata] *)

Lemma clean_doi_prefixed (id : string) :
  CrossrefClient.clean_doi (CrossrefClient.DOI_PREFIX ++ id)
  = CrossrefClient.clean_doi id.
Proof.
  unfold CrossrefClient.clean_doi.
  change CrossrefClient.DOI_PREFIX with (String "h" "ttps://doi.org/").
  now rewrite str_replace_leading.
Qed.

(** C6.  For every identifier [id], [get_metadata] cleans the
    resolver-prefixed form [https://doi.org/<id>] and the bare form to
    the same key, builds the same request URL from both, and, run in the
    same world against the same catalog, does the same requests and
    yields the same metadata. *)
Theorem get_metadata_prefixed_same
  (W : Type) (sleep : Z -> W -> W)
  (session_get : string -> io W CrossrefClient.Response) (id : string) (w : W) :
  CrossrefClient.clean_doi (CrossrefClient.DOI_PREFIX ++ id)
  = CrossrefClient.clean_doi id
  /\ CrossrefClient.request_url (CrossrefClient.DOI_PREFIX ++ id)
     = CrossrefClient.request_url id
  /\ CrossrefClient.get_metadata sleep session_get
       (CrossrefClient.DOI_PREFIX ++ id) w
     = CrossrefClient.get_metadata sleep session_get id w.
Proof.
  pose proof (clean_doi_prefixed id) as Hk.
  split; [exact Hk|].
  split.
  - unfold CrossrefClient.request_url. now rewrite Hk.
  - unfold CrossrefClient.get_metadata, CrossrefClient.get_metadata_attempt.
    now rewrite Hk.
Qed.

(** X4.  An identifier that does not contain the resolver prefix is its
    own key; with C6, the prefixed form of such an identifier is cleaned
    to the bare identifier. *)
Theorem clean_doi_bare (id : string) :
  str_contains CrossrefClient.DOI_PREFIX id = false ->
  CrossrefClient.clean_doi id = id
  /\ CrossrefClient.clean_doi (CrossrefClient.DOI_PREFIX ++ id) = id.
Proof.
  intros H. rewrite clean_doi_prefixed.
  split; now apply str_replace_absent.
Qed.

Lemma clean_doi_bare_witness :
  CrossrefClient.clean_doi "10.3390/cryst9110586" = "10.3390/cryst9110586"
  /\ CrossrefClient.clean_doi "https://doi.org/10.3390/cryst9110586"
     = "10.3390/cryst9110586".
Proof. exact (clean_doi_bare "10.3390/cryst9110586" eq_refl). Defined.

(** ** Retrying [get_metadata] *)

Lemma wait_after_first : Tenacity.wait_exponential 1 4 10 1 = 4%Z.
Proof. reflexivity. Qed.

Lemma wait_after_second : Tenacity.wait_exponential 1 4 10 2 = 4%Z.
Proof. reflexivity. Qed.

Section GetMetadata.
Context {W : Type}.
Variable sleep : Z -> W -> W.
Variable session_get : string -> io W CrossrefClient.Response.

(** One attempt whose request is answered with an error status raises
    [HTTPError] for that status. *)
Lemma attempt_error_status doi w r w' :
  session_get (CrossrefClient.request_url doi) w = (Ok r, w') ->
  (400 <= CrossrefClient.status_code r < 600)%Z ->
  CrossrefClient.get_metadata_attempt session_get doi w
  = (Raise (HTTPError (CrossrefClient.status_code r)), w').
Proof.
  intros Hget Hst.
  unfold CrossrefClient.get_metadata_attempt, CrossrefClient.request_url in *.
  unfold bind at 1. rewrite Hget.
  unfold bind, lift, CrossrefClient.raise_for_status.
  replace ((400 <=? CrossrefClient.status_code r)
           && (CrossrefClient.status_code r <? 600))%Z with true; [reflexivity|].
  symmetry. apply andb_true_iff. split; [apply Z.leb_le | apply Z.ltb_lt]; lia.
Qed.

(** One attempt whose request raises, raises the same. *)
Lemma attempt_no_answer doi w e w' :
  session_get (CrossrefClient.request_url doi) w = (Raise e, w') ->
  CrossrefClient.get_metadata_attempt session_get doi w = (Raise e, w').
Proof.
  intros Hget.
  unfold CrossrefClient.get_metadata_attempt, CrossrefClient.request_url in *.
  unfold bind at 1. now rewrite Hget.
Qed.

(** Three failed attempts in a row, whatever the failures: two sleeps
    of 4 seconds between them, then [RetryError] around the last. *)
Lemma get_metadata_gives_up doi w e1 w1 e2 w2 e3 w3 :
  CrossrefClient.get_metadata_attempt session_get doi w = (Raise e1, w1) ->
  CrossrefClient.get_metadata_attempt session_get doi (sleep 4 w1)
  = (Raise e2, w2) ->
  CrossrefClient.get_metadata_attempt session_get doi (sleep 4 w2)
  = (Raise e3, w3) ->
  CrossrefClient.get_metadata sleep session_get doi w
  = (Raise (RetryError e3), w3).
Proof.
  intros H1 H2 H3.
  unfold CrossrefClient.get_metadata, Tenacity.retry_3_exponential,
    Tenacity.retry.
  cbn [Nat.sub Tenacity.attempts]. rewrite H1.
  rewrite wait_after_first. cbn [Tenacity.attempts].
  change (1 + 1)%Z with 2%Z. rewrite H2.
  rewrite wait_after_second. cbn [Tenacity.attempts]. now rewrite H3.
Qed.

(** X6.  A failed attempt followed, after a sleep of 4 seconds, by a
    successful one: [get_metadata] returns the second answer. *)
Theorem get_metadata_second_attempt doi w e1 w1 v w2 :
  CrossrefClient.get_metadata_attempt session_get doi w = (Raise e1, w1) ->
  CrossrefClient.get_metadata_attempt session_get doi (sleep 4 w1) = (Ok v, w2) ->
  CrossrefClient.get_metadata sleep session_get doi w = (Ok v, w2).
Proof.
  intros H1 H2.
  unfold CrossrefClient.get_metadata, Tenacity.retry_3_exponential,
    Tenacity.retry.
  cbn [Nat.sub Tenacity.attempts]. rewrite H1.
  rewrite wait_after_first. cbn [Tenacity.attempts]. now rewrite H2.
Qed.

(** C3, amended.  A 404 answer is retried like any other failure: when
    the catalog answers the request with 404, [get_metadata] sleeps 4
    seconds and asks again, and again after a second 404; only the
    third 404 in a row makes it fail, with [RetryError] around the
    HTTP error.  The world it leaves is the one after three requests
    and two sleeps. *)
Theorem get_metadata_404_retried doi w r1 w1 r2 w2 r3 w3 :
  let url := CrossrefClient.request_url doi in
  session_get url w = (Ok r1, w1) ->
  CrossrefClient.status_code r1 = 404%Z ->
  session_get url (sleep 4 w1) = (Ok r2, w2) ->
  CrossrefClient.status_code r2 = 404%Z ->
  session_get url (sleep 4 w2) = (Ok r3, w3) ->
  CrossrefClient.status_code r3 = 404%Z ->
  CrossrefClient.get_metadata sleep session_get doi w
  = (Raise (RetryError (HTTPError 404)), w3).
Proof.
  intros url G1 S1 G2 S2 G3 S3.
  apply get_metadata_gives_up with (e1 := HTTPError 404) (w1 := w1)
                                   (e2 := HTTPError 404) (w2 := w2).
  - rewrite <- S1. apply attempt_error_status; [exact G1 | lia].
  - rewrite <- S2. apply attempt_error_status; [exact G2 | lia].
  - rewrite <- S3. apply attempt_error_status; [exact G3 | lia].
Qed.
End GetMetadata.

(** C3, as stated, fails: against a catalog that answers 404 to every
    request, [get_metadata] asks three times and sleeps twice before it
    fails; it does not fail at the first answer. *)
Lemma get_metadata_404_three_requests :
  let url := "https://api.crossref.org/works/10.1000/unknown" in
  let out := CrossrefClient.get_metadata Scenario.sleep Scenario.catalog_404
               "10.1000/unknown" [] in
  out = (Raise (RetryError (HTTPError 404)),
         [ Scenario.Requested url; Scenario.Slept 4; Scenario.Requested url;
           Scenario.Slept 4; Scenario.Requested url ])
  /\ Scenario.requests (snd out) = 3%nat.
Proof. split; reflexivity. Qed.

Lemma get_metadata_second_attempt_witness :
  let flaky : string -> io Scenario.log CrossrefClient.Response :=
    fun url w =>
      match w with
      | [] => Scenario.catalog 503 (Raise JSONDecodeError) url w
      | _ => Scenario.catalog 200 (Ok (JObj [("message", JObj [])])) url w
      end in
  CrossrefClient.get_metadata Scenario.sleep flaky "10.3390/met14111217" []
  = (Ok (JObj []),
     [ Scenario.Requested "https://api.crossref.org/works/10.3390/met14111217";
       Scenario.Slept 4;
       Scenario.Requested "https://api.crossref.org/works/10.3390/met14111217" ]).
Proof.
  intros flaky.
  apply (get_metadata_second_attempt Scenario.sleep flaky "10.3390/met14111217"
           [] (HTTPError 503)
           [Scenario.Requested "https://api.crossref.org/works/10.3390/met14111217"]);
    reflexivity.
Defined.

Lemma get_metadata_404_retried_witness :
  CrossrefClient.get_metadata Scenario.sleep Scenario.catalog_404
    "https://doi.org/10.3390/none" []
  = (Raise (RetryError (HTTPError 404)),
     [ Scenario.Requested "https://api.crossref.org/works/10.3390/none";
       Scenario.Slept 4;
       Scenario.Requested "https://api.crossref.org/works/10.3390/none";
       Scenario.Slept 4;
       Scenario.Requested "https://api.crossref.org/works/10.3390/none" ]).
Proof.
  eapply (get_metadata_404_retried Scenario.sleep Scenario.catalog_404
            "https://doi.org/10.3390/none" []); reflexivity.
Defined.


(** ** [save_results] *)

Lemma total_properties_from (results : list Schemas.ExtractedData) (acc : Z) :
  fold_left
    (fun acc r =>
       (acc + Z.of_nat (List.length (Schemas.mechanical_properties r)))%Z)
    results acc
  = (acc + Z.of_nat
             (list_sum (map (fun r => List.length (Schemas.mechanical_properties r))
                            results)))%Z.
Proof.
  revert acc.
  induction results as [|r results IH]; intros acc; simpl.
  - lia.
  - rewrite IH. lia.
Qed.

Lemma total_properties_sum (results : list Schemas.ExtractedData) :
  Main.total_properties results
  = Z.of_nat (list_sum (map (fun r => List.length (Schemas.mechanical_properties r))
                            results)).
Proof. unfold Main.total_properties. rewrite total_properties_from. lia. Qed.

(** C1.  For every list of results, [save_results] builds the
    [UnifiedResults] whose [data] is that list, whose [papers_processed]
    is the length of [data] and whose [total_properties_extracted] is
    the sum, over [data], of the lengths of the [mechanical_properties];
    this is the value whose dump it hands to the file writer. *)
Theorem save_results_counts
  (W : Type) (str_datetime : Schemas.datetime -> string)
  (now : W -> Schemas.datetime) (json_dumps : Py.json -> string)
  (write_text : string -> string -> io W unit)
  (results : list Schemas.ExtractedData) (output_path : string) (w : W) :
  let unified := Main.unify (now w) results in
  Main.save_results str_datetime now json_dumps write_text results output_path w
  = (write_text output_path
       (json_dumps (JObj (Main.dump_UnifiedResults str_datetime unified))) ;;;
     ret unified) w
  /\ Schemas.data unified = results
  /\ Schemas.papers_processed unified
     = Z.of_nat (List.length (Schemas.data unified))
  /\ Schemas.total_properties_extracted unified
     = Z.of_nat
         (list_sum (map (fun r => List.length (Schemas.mechanical_properties r))
                        (Schemas.data unified))).
Proof.
  intros unified. repeat split.
  unfold unified. cbn [Main.unify Schemas.total_properties_extracted Schemas.data].
  apply total_properties_sum.
Qed.


(** ** The loop of [process_papers] *)

Section Orchestration.
Context {W : Type}.
Variable get_metadata : string -> io W Py.json.
Variable download_pdf : string -> string -> io W (option string).
Variable extract_from_paper :
  string -> Schemas.PaperMetadata -> io W Schemas.ExtractedData.

Let paper_fails := Vocabulary.paper_fails get_metadata download_pdf extract_from_paper.
Let process_paper := Main.process_paper get_metadata download_pdf extract_from_paper.
Let process_each := Main.process_each get_metadata download_pdf extract_from_paper.

(** A paper that fails yields no entry: its [try] block raises, or takes
    the [continue] after the download. *)
Lemma paper_fails_no_entry paper w w' :
  paper_fails paper w w' ->
  process_paper paper w = (Ok None, w')
  \/ exists e, process_paper paper w = (Raise e, w').
Proof.
  unfold process_paper, Main.process_paper.
  intros [e w1 Hm
         | metadata e w1 Hm Hi
         | metadata pm e w1 w2 Hm Hi Hd
         | metadata pm w1 w2 Hm Hi Hd
         | metadata pm path e w1 w2 w3 Hm Hi Hd He].
  - right. exists e. unfold bind at 1. now rewrite Hm.
  - right. unfold bind at 1. rewrite Hm.
    unfold bind, lift.
    destruct (Main.extract_paper_info_of metadata) as [info|e']; cbn in Hi |- *.
    + rewrite Hi. now exists e.
    + exists e'. reflexivity.
  - right. exists e. unfold bind at 1. rewrite Hm.
    unfold bind, lift.
    destruct (Main.extract_paper_info_of metadata) as [info|e']; cbn in Hi |- *;
      [|discriminate].
    rewrite Hi. now rewrite Hd.
  - left. unfold bind at 1. rewrite Hm.
    unfold bind, lift.
    destruct (Main.extract_paper_info_of metadata) as [info|e']; cbn in Hi |- *;
      [|discriminate].
    rewrite Hi. now rewrite Hd.
  - right. exists e. unfold bind at 1. rewrite Hm.
    unfold bind, lift.
    destruct (Main.extract_paper_info_of metadata) as [info|e']; cbn in Hi |- *;
      [|discriminate].
    rewrite Hi. rewrite Hd. now rewrite He.
Qed.

(** The loop only appends to the list it was given. *)
Lemma process_each_results papers results w :
  process_each papers results w
  = ((results ++ fst (process_each papers [] w))%list,
     snd (process_each papers [] w)).
Proof.
  unfold process_each.
  revert results w.
  induction papers as [|paper papers IH]; intros results w.
  - cbn. now rewrite app_nil_r.
  - cbn [Main.process_each].
    destruct (Main.process_paper get_metadata download_pdf extract_from_paper
                                 paper w) as [[[entry|]|e] w1].
    + rewrite (IH (results ++ [entry])%list), (IH ([] ++ [entry])%list).
      cbn [fst snd]. now rewrite <- app_assoc.
    + apply IH.
    + apply IH.
Qed.

(** The loop over a concatenation: the second part goes on from the
    results and the world of the first. *)
Lemma process_each_app before after results w :
  process_each (before ++ after)%list results w
  = process_each after (fst (process_each before results w))
                 (snd (process_each before results w)).
Proof.
  unfold process_each.
  revert results w.
  induction before as [|paper before IH]; intros results w.
  - reflexivity.
  - cbn [app Main.process_each].
    destruct (Main.process_paper get_metadata download_pdf extract_from_paper
                                 paper w) as [[[entry|]|e] w1]; apply IH.
Qed.

(** The loop reaches the end of every sequence: a failed paper adds
    nothing and the papers after it are processed from the world it
    left. *)
Lemma process_each_skips before paper after w w' :
  paper_fails paper (snd (process_each before [] w)) w' ->
  process_each (before ++ paper :: after)%list [] w
  = ((fst (process_each before [] w) ++ fst (process_each after [] w'))%list,
     snd (process_each after [] w')).
Proof.
  intros Hf. rewrite process_each_app.
  destruct (process_each before [] w) as [done w1] eqn:Hb. cbn [fst snd] in *.
  apply paper_fails_no_entry in Hf.
  unfold process_each at 1. cbn [Main.process_each].
  fold process_paper.
  destruct Hf as [Hf | [e Hf]]; rewrite Hf;
    fold process_each; apply process_each_results.
Qed.

Variable api_key : option string.
Variable mkdir : string -> io W unit.

(** C2.  Once [process_papers] has set up its clients and directories,
    a paper that fails at any stage (the metadata fetch raises, the
    metadata cannot be turned into a [PaperMetadata], the download
    raises or returns no path, the extraction raises) does not stop the
    batch: the papers before it keep their entries, the papers after it
    are processed from the world the failed paper left, the failed paper
    has no entry, and [process_papers] returns the list. *)
Theorem failed_paper_is_skipped before paper after w w0 w' :
  Main.setup api_key mkdir w = (Ok tt, w0) ->
  paper_fails paper (snd (process_each before [] w0)) w' ->
  Main.process_papers_over get_metadata download_pdf extract_from_paper
    api_key mkdir (before ++ paper :: after)%list w
  = (Ok (fst (process_each before [] w0) ++ fst (process_each after [] w'))%list,
     snd (process_each after [] w')).
Proof.
  intros Hs Hf.
  unfold Main.process_papers_over, bind. rewrite Hs.
  fold process_each. now rewrite (process_each_skips _ _ _ _ _ Hf).
Qed.

End Orchestration.

Lemma failed_paper_is_skipped_witness :
  let known1 := {| Main.paper_doi := "https://doi.org/10.3390/cryst9110586";
                   Main.paper_title := "Effect of ECAP" |} in
  let unknown := {| Main.paper_doi := "https://doi.org/10.3390/unknown";
                    Main.paper_title := "No such paper" |} in
  let known2 := {| Main.paper_doi := "https://doi.org/10.3390/met14111217";
                   Main.paper_title := "Pure Copper" |} in
  exists results w',
    Main.process_papers_over
      (CrossrefClient.get_metadata Scenario.sleep Scenario.catalog_some)
      Scenario.download_found Scenario.extract_nothing
      (Some "key") Scenario.mkdir_ok [known1; unknown; known2] []
    = (Ok results, w')
    /\ List.length results = 2%nat
    /\ Scenario.requests w' = 5%nat.
Proof.
  intros known1 unknown known2.
  eexists. eexists. split.
  - apply (failed_paper_is_skipped
             (CrossrefClient.get_metadata Scenario.sleep Scenario.catalog_some)
             Scenario.download_found Scenario.extract_nothing
             (Some "key") Scenario.mkdir_ok [known1] unknown [known2] [] []).
    + reflexivity.
    + eapply metadata_fetch_raises. vm_compute. reflexivity.
  - split; vm_compute; reflexivity.
Defined.

(** ** [extract_paper_info] and the [PaperMetadata] built from it *)

Lemma rbind_ok {A B} (r : result A) (k : A -> result B) (b : B) :
  rbind r k = Ok b -> exists a, r = Ok a /\ k a = Ok b.
Proof. destruct r as [a|e]; cbn; [eauto | discriminate]. Qed.

(** The [publication_date] of the [PaperMetadata] is what
    [publication_date_arg] makes of what [print_date_of] finds. *)
Lemma publication_date_path metadata pm :
  paper_metadata_for metadata = Ok pm ->
  exists entry,
    CrossrefClient.print_date_of metadata = Ok entry
    /\ Main.publication_date_arg entry = Ok (Schemas.publication_date pm).
Proof.
  unfold paper_metadata_for, CrossrefClient.extract_paper_info.
  intros H.
  apply rbind_ok in H as (info & Hinfo & H).
  apply rbind_ok in Hinfo as (authors & _ & Hinfo).
  apply rbind_ok in Hinfo as (title & _ & Hinfo).
  apply rbind_ok in Hinfo as (entry & Hentry & Hinfo).
  apply rbind_ok in Hinfo as (journal & _ & Hinfo).
  injection Hinfo as <-.
  exists entry. split; [exact Hentry|].
  unfold Main.make_paper_metadata in H. cbn in H.
  apply rbind_ok in H as (date & Hdate & H).
  unfold Schemas.new_PaperMetadata in H.
  apply rbind_ok in H as (doi' & _ & H).
  apply rbind_ok in H as (title' & _ & H).
  apply rbind_ok in H as (authors' & _ & H).
  apply rbind_ok in H as (journal' & _ & H).
  injection H as <-. exact Hdate.
Qed.

(** C7, amended.  When the print-publication date of the document holds
    [date-parts] whose first entry is the list [parts], the
    [publication_date] of the [PaperMetadata] is the first component of
    that entry (the year) rendered as a string, and it is absent when
    that entry is empty. *)
Theorem publication_date_is_first_part metadata print_date parts more :
  dict_get "published-print" metadata = Some (JObj print_date) ->
  dict_get "date-parts" print_date = Some (JArr (JArr parts :: more)) ->
  let expected :=
    match parts with
    | part :: _ => Some (py_str part)
    | [] => None
    end in
  CrossrefClient.print_date_of metadata = Ok (JArr parts)
  /\ Main.publication_date_arg (JArr parts) = Ok expected
  /\ forall pm, paper_metadata_for metadata = Ok pm ->
                Schemas.publication_date pm = expected.
Proof.
  intros Hprint Hparts expected.
  assert (Hentry : CrossrefClient.print_date_of metadata = Ok (JArr parts)).
  { unfold CrossrefClient.print_date_of, dict_get_default.
    rewrite Hprint. cbn. unfold dict_get_default. now rewrite Hparts. }
  assert (Harg : Main.publication_date_arg (JArr parts) = Ok expected).
  { unfold expected. now destruct parts. }
  repeat split; [exact Hentry | exact Harg |].
  intros pm Hpm.
  apply publication_date_path in Hpm as (entry & Hentry' & Hdate).
  rewrite Hentry in Hentry'. injection Hentry' as <-.
  rewrite Harg in Hdate. now injection Hdate.
Qed.

(** C7, as stated, fails: for a print date of 8 November 2019 the first
    [date-parts] entry is [[2019, 11, 8]], and the [publication_date]
    built is the year alone. *)
Lemma publication_date_is_year_only :
  exists pm,
    paper_metadata_for Scenario.cryst9110586 = Ok pm
    /\ Schemas.publication_date pm = Some "2019"
    /\ stated_publication_date Scenario.cryst9110586 = Some "[2019, 11, 8]".
Proof. eexists. repeat split. Qed.

Lemma publication_date_is_first_part_witness :
  CrossrefClient.print_date_of Scenario.cryst9110586
  = Ok (JArr [JInt 2019; JInt 11; JInt 8])
  /\ Main.publication_date_arg (JArr [JInt 2019; JInt 11; JInt 8])
     = Ok (Some "2019")
  /\ forall pm, paper_metadata_for Scenario.cryst9110586 = Ok pm ->
                Schemas.publication_date pm = Some "2019".
Proof.
  exact (publication_date_is_first_part Scenario.cryst9110586
           [("date-parts", JArr [JArr [JInt 2019; JInt 11; JInt 8]])]
           [JInt 2019; JInt 11; JInt 8] [] eq_refl eq_refl).
Defined.

(** X2.  Without a print-publication date the default [[[None]]] makes
    the first entry the one-element list [[None]], which is true as a
    condition: the [publication_date] built is the text [None], not an
    absent value. *)
Theorem publication_date_without_print_date metadata pm :
  dict_get "published-print" metadata = None ->
  paper_metadata_for metadata = Ok pm ->
  Schemas.publication_date pm = Some "None".
Proof.
  intros Hnone Hpm.
  apply publication_date_path in Hpm as (entry & Hentry & Hdate).
  unfold CrossrefClient.print_date_of, dict_get_default in Hentry.
  rewrite Hnone in Hentry. cbn in Hentry. injection Hentry as <-.
  cbn in Hdate. now injection Hdate.
Qed.

Lemma publication_date_without_print_date_witness :
  exists pm,
    paper_metadata_for [("DOI", JStr "10.3390/met14111217");
                        ("title", JArr [JStr "Pure Copper"])] = Ok pm
    /\ Schemas.publication_date pm = Some "None".
Proof.
  eexists. split; [reflexivity|].
  now apply (publication_date_without_print_date
               [("DOI", JStr "10.3390/met14111217");
                ("title", JArr [JStr "Pure Copper"])]).
Defined.

(** *** Missing keys *)

Lemma authors_of_missing metadata :
  dict_has "author" metadata = false -> CrossrefClient.authors_of metadata = Ok [].
Proof. unfold CrossrefClient.authors_of. now intros ->. Qed.

Lemma first_or_empty_missing key metadata :
  dict_has key metadata = false ->
  CrossrefClient.first_or_empty key metadata = Ok (JStr "").
Proof.
  unfold CrossrefClient.first_or_empty, dict_get_default, dict_has.
  now destruct (dict_get key metadata).
Qed.

Lemma author_names_objects (items : list Py.json) :
  forallb is_object items = true ->
  exists names, CrossrefClient.author_names items = Ok names.
Proof.
  induction items as [|author items IH]; cbn [forallb]; intros H.
  - now exists [].
  - apply andb_true_iff in H as [Ha Hrest].
    destruct (IH Hrest) as [names Hnames].
    destruct author; try discriminate.
    cbn. rewrite Hnames. cbn. eauto.
Qed.

Lemma authors_of_shaped metadata :
  field_ok "author"
           (fun v => match v with JArr l => forallb is_object l | _ => false end)
           metadata = true ->
  exists names, CrossrefClient.authors_of metadata = Ok names.
Proof.
  unfold field_ok, CrossrefClient.authors_of, dict_has, py_getitem.
  destruct (dict_get "author" metadata) as [[| | | | |l|]|]; try discriminate.
  - intros H. cbn. now apply author_names_objects.
  - intros _. now exists [].
Qed.

Lemma first_or_empty_shaped key metadata :
  field_ok key is_array metadata = true ->
  exists v, CrossrefClient.first_or_empty key metadata = Ok v.
Proof.
  unfold field_ok, CrossrefClient.first_or_empty, dict_get_default.
  destruct (dict_get key metadata) as [[| | | | |[|x l]|]|]; try discriminate;
    intros _; cbn; eauto.
Qed.

Lemma print_date_of_shaped metadata :
  field_ok "published-print"
           (fun v => match v with
                     | JObj print_date =>
                         field_ok "date-parts" is_nonempty_array print_date
                     | _ => false
                     end)
           metadata = true ->
  exists entry, CrossrefClient.print_date_of metadata = Ok entry.
Proof.
  unfold field_ok at 1, CrossrefClient.print_date_of, dict_get_default.
  destruct (dict_get "published-print" metadata) as [[| | | | | |print_date]|];
    try discriminate.
  - unfold field_ok. cbn. unfold dict_get_default.
    destruct (dict_get "date-parts" print_date) as [[| | | | |[|x l]|]|];
      try discriminate; intros _; cbn; eauto.
  - intros _. cbn. eauto.
Qed.

(** C8, amended.  On every metadata document of the catalog's shape in
    the fields [extract_paper_info] reads (a present [author] is a list
    of objects, a present [title] or [container-title] is a list, a
    present [published-print] is an object whose [date-parts], when
    present, is a list with at least one entry) [extract_paper_info]
    raises nothing and returns a record; in that record [authors] is
    the empty list when [author] is missing, [title] the empty string
    when [title] is missing, and [journal] the empty string when
    [container-title] is missing. *)
Theorem extract_paper_info_defaults metadata :
  catalog_shaped metadata = true ->
  exists info,
    CrossrefClient.extract_paper_info metadata = Ok info
    /\ (dict_has "author" metadata = false ->
        dict_get "authors" info = Some (JArr []))
    /\ (dict_has "title" metadata = false ->
        dict_get "title" info = Some (JStr ""))
    /\ (dict_has "container-title" metadata = false ->
        dict_get "journal" info = Some (JStr "")).
Proof.
  unfold catalog_shaped. intros H.
  apply andb_true_iff in H as [H Hprint].
  apply andb_true_iff in H as [H Hjournal].
  apply andb_true_iff in H as [Hauthor Htitle].
  destruct (authors_of_shaped _ Hauthor) as [names Hnames].
  destruct (first_or_empty_shaped _ _ Htitle) as [title Ht].
  destruct (first_or_empty_shaped _ _ Hjournal) as [journal Hj].
  destruct (print_date_of_shaped _ Hprint) as [entry He].
  unfold CrossrefClient.extract_paper_info.
  rewrite Hnames, Ht, He, Hj. cbn [rbind].
  eexists. split; [reflexivity|].
  cbn. repeat split; intros Hmissing.
  - rewrite (authors_of_missing _ Hmissing) in Hnames. now injection Hnames as <-.
  - rewrite (first_or_empty_missing _ _ Hmissing) in Ht. now injection Ht as <-.
  - rewrite (first_or_empty_missing _ _ Hmissing) in Hj. now injection Hj as <-.
Qed.

(** C8, as stated, fails: this document has none of the keys [author],
    [title] and [container-title], and [extract_paper_info] raises
    [IndexError] on it, for the empty [date-parts] of its print date. *)
Lemma extract_paper_info_raises_without_keys :
  let metadata := [("published-print", JObj [("date-parts", JArr [])])] in
  dict_has "author" metadata = false
  /\ dict_has "title" metadata = false
  /\ dict_has "container-title" metadata = false
  /\ CrossrefClient.extract_paper_info metadata = Raise IndexError.
Proof. repeat split. Qed.

Lemma extract_paper_info_defaults_witness :
  exists info,
    CrossrefClient.extract_paper_info
      [("DOI", JStr "10.3390/met14111217"); ("publisher", JStr "MDPI AG")]
    = Ok info
    /\ dict_get "authors" info = Some (JArr [])
    /\ dict_get "title" info = Some (JStr "")
    /\ dict_get "journal" info = Some (JStr "").
Proof.
  destruct (extract_paper_info_defaults
              [("DOI", JStr "10.3390/met14111217");
               ("publisher", JStr "MDPI AG")] eq_refl)
    as (info & Hinfo & Ha & Ht & Hj).
  exists info. repeat split; [exact Hinfo | apply Ha | apply Ht | apply Hj];
    reflexivity.
Defined.

(** ** [extract_properties] *)

Section ExtractProperties.
Context {W : Type}.
Variable sleep : Z -> W -> W.
Variable chat_completions_create :
  string -> string -> string -> io W (list (option string)).
Variable json_loads : string -> result Py.json.
Variable model : string.

Let extract_properties_attempt :=
  LLMExtractor.extract_properties_attempt chat_completions_create json_loads model.
Let extract_properties :=
  LLMExtractor.extract_properties sleep chat_completions_create json_loads model.

(** The [except Exception] of the body catches whatever the call, the
    indexing or the parsing raises: one attempt always returns. *)
Lemma extract_properties_attempt_returns text paper_info w :
  exists v, fst (extract_properties_attempt text paper_info w) = Ok v.
Proof.
  unfold extract_properties_attempt, LLMExtractor.extract_properties_attempt,
    try_except.
  match goal with |- context [match ?m w with _ => _ end] => destruct (m w) as [[v|e] w'] end;
    cbn; eauto.
Qed.

(** So the decorator sees no exception and never starts a second
    attempt: [extract_properties] is its first attempt. *)
Lemma extract_properties_once text paper_info w :
  extract_properties text paper_info w
  = extract_properties_attempt text paper_info w.
Proof.
  unfold extract_properties, LLMExtractor.extract_properties,
    Tenacity.retry_3_exponential, Tenacity.retry.
  fold extract_properties_attempt.
  cbn [Nat.sub Tenacity.attempts].
  destruct (extract_properties_attempt_returns text paper_info w) as [v Hv].
  destruct (extract_properties_attempt text paper_info w) as [[v'|e] w'];
    [reflexivity | discriminate].
Qed.

(** When the call to the service raises, the result is the empty list
    and the world is the one the single call left. *)
Lemma extract_properties_on_failure text paper_info w e w' :
  chat_completions_create model LLMExtractor.system_prompt
    (LLMExtractor.user_prompt
       (py_str (dict_get_default "title" (JStr "Unknown") paper_info)) text) w
  = (Raise e, w') ->
  extract_properties text paper_info w = (Ok (JArr []), w').
Proof.
  intros Hcall. rewrite extract_properties_once.
  unfold extract_properties_attempt, LLMExtractor.extract_properties_attempt,
    try_except, bind.
  now rewrite Hcall.
Qed.

(** X1.  For every text and paper, the decorated [extract_properties]
    is its own first attempt and returns a value: the retry policy
    written on it never comes into play. *)
Theorem extract_properties_never_retries text paper_info w :
  extract_properties text paper_info w
  = extract_properties_attempt text paper_info w
  /\ exists v, fst (extract_properties text paper_info w) = Ok v.
Proof.
  split; [apply extract_properties_once|].
  rewrite extract_properties_once. apply extract_properties_attempt_returns.
Qed.

End ExtractProperties.


(** What stands under [properties] or [data] is returned as it is, a
    list or not. *)
Lemma properties_returned_unchecked :
  LLMExtractor.handle_response_format (JObj [("properties", JNull)]) = JNull
  /\ LLMExtractor.handle_response_format
       (JObj [("data", JObj [("material", JStr "Cu")])])
     = JObj [("material", JStr "Cu")].
Proof. split; reflexivity. Qed.

(** C4 on the code: with the reasoning service down, [extract_properties]
    asks once, sleeps never and returns the empty list. *)
Lemma extract_properties_asks_once :
  let out :=
    LLMExtractor.extract_properties Scenario.sleep Scenario.service_down
      (fun _ => Raise JSONDecodeError) "gpt-4.1"
      "Table 1. Tensile properties" [("title", JStr "Effect of ECAP")] [] in
  fst out = Ok (JArr [])
  /\ Scenario.questions (snd out) = 1%nat
  /\ List.length (snd out) = 1%nat.
Proof. repeat split. Qed.

(** ** The record coercion of [extract_from_paper] *)

Lemma float_1234_5_exact :
  (Zpos 5429388417957888 * 2 = 2469 * 2 ^ 42)%Z
  /\ float_repr float_1234_5 = "1234.5".
Proof. split; reflexivity. Qed.

Lemma float_of_cleaned_1234_5 :
  float_of_str (str_replace "," "" "1,234.5") = Ok float_1234_5.
Proof. reflexivity. Qed.

Lemma dict_get_set key v d : dict_get key (dict_set key v d) = Some v.
Proof.
  induction d as [|[k x] d IH]; cbn.
  - now rewrite String.eqb_refl.
  - destruct (String.eqb k key) eqn:E; cbn; now rewrite E.
Qed.

Section Coercion.
Variable str_to_float : string -> result spec_float.

Let convert_property := LLMExtractor.convert_property str_to_float.
Let convert_properties := LLMExtractor.convert_properties str_to_float.

(** A float passed for [value] is the [value] of the record built. *)
Lemma new_MechanicalProperty_value d f p :
  dict_get "value" d = Some (JFloat f) ->
  Schemas.new_MechanicalProperty str_to_float d = Ok p ->
  Schemas.value p = f.
Proof.
  intros Hv H. unfold Schemas.new_MechanicalProperty in H.
  rewrite Hv in H.
  apply rbind_ok in H as (material & _ & H).
  apply rbind_ok in H as (condition & _ & H).
  apply rbind_ok in H as (property_name & _ & H).
  apply rbind_ok in H as (value & Hvalue & H).
  apply rbind_ok in H as (unit_ & _ & H).
  apply rbind_ok in H as (temperature & _ & H).
  apply rbind_ok in H as (temperature_unit & _ & H).
  apply rbind_ok in H as (strain_rate & _ & H).
  apply rbind_ok in H as (additional_info & _ & H).
  injection H as <-. cbn in Hvalue |- *. now injection Hvalue.
Qed.

Lemma convert_properties_app before after :
  convert_properties (before ++ after)%list
  = (convert_properties before ++ convert_properties after)%list.
Proof.
  unfold convert_properties.
  induction before as [|prop before IH]; cbn.
  - reflexivity.
  - destruct (LLMExtractor.convert_property str_to_float prop);
      cbn; now rewrite IH.
Qed.

(** C9.  A raw record whose [value] is the string [1,234.5] reaches the
    validation of [MechanicalProperty] with the float 1234.5 in its
    place, and a record built from it has that [value]; a record whose
    coercion or validation raises is left out, and the records before
    and after it are converted as without it. *)
Theorem value_coerced_and_failures_dropped d before failing e after :
  dict_get "value" d = Some (JStr "1,234.5") ->
  convert_property failing = Raise e ->
  convert_property (JObj d)
  = Schemas.new_MechanicalProperty str_to_float
      (dict_set "value" (JFloat float_1234_5) d)
  /\ (forall p, convert_property (JObj d) = Ok p -> Schemas.value p = float_1234_5)
  /\ convert_properties (before ++ failing :: after)%list
     = (convert_properties before ++ convert_properties after)%list.
Proof.
  intros Hv Hfail.
  assert (Hc : convert_property (JObj d)
               = Schemas.new_MechanicalProperty str_to_float
                   (dict_set "value" (JFloat float_1234_5) d)).
  { unfold convert_property, LLMExtractor.convert_property, py_get,
      dict_get_default.
    rewrite Hv. cbn [rbind]. now rewrite float_of_cleaned_1234_5. }
  split; [exact Hc|]. split.
  - intros p Hp. rewrite Hc in Hp.
    exact (new_MechanicalProperty_value _ _ _ (dict_get_set _ _ _) Hp).
  - rewrite convert_properties_app.
    unfold convert_properties at 2. cbn [LLMExtractor.convert_properties].
    fold convert_property. now rewrite Hfail.
Qed.
End Coercion.

Lemma value_coerced_and_failures_dropped_witness :
  let good := [("material", JStr "Mg-2Y-0.6Nd-0.6Zr"); ("property_name", JStr "UTS");
               ("value", JStr "1,234.5"); ("unit", JStr "MPa")] in
  let no_number := JObj [("material", JStr "Cu"); ("property_name", JStr "YS");
                         ("value", JStr "n/a"); ("unit", JStr "MPa")] in
  let no_unit := JObj [("material", JStr "Cu"); ("property_name", JStr "YS");
                       ("value", JInt 210)] in
  LLMExtractor.convert_property float_of_str no_number = Raise ValueError
  /\ LLMExtractor.convert_property float_of_str no_unit = Raise ValidationError
  /\ (exists p, LLMExtractor.convert_property float_of_str (JObj good) = Ok p
                /\ Schemas.value p = float_1234_5)
  /\ List.length
       (LLMExtractor.convert_properties float_of_str
          [JObj good; no_number; no_unit; JObj good]) = 2%nat.
Proof.
  intros good no_number no_unit.
  destruct (value_coerced_and_failures_dropped float_of_str good
              [JObj good] no_number ValueError [no_unit; JObj good]
              eq_refl eq_refl) as (Hc & Hv & Hdrop).
  split; [reflexivity|]. split; [reflexivity|]. split.
  - eexists. split; [reflexivity|]. apply Hv. reflexivity.
  - cbn [app] in Hdrop. rewrite Hdrop. reflexivity.
Defined.

(** ** The interactive strategy of [download_pdf] *)

Lemma max_by_mtime_in best files :
  In (CrossrefClient.max_by_mtime best files) (best :: files).
Proof.
  revert best.
  induction files as [|f files IH]; intros best; cbn.
  - now left.
  - destruct (CrossrefClient.st_mtime best <? CrossrefClient.st_mtime f)%Z.
    + right. apply IH.
    + destruct (IH best) as [H|H]; [now left | now right; right].
Qed.

Lemma max_by_mtime_ge_best best files :
  (CrossrefClient.st_mtime best
   <= CrossrefClient.st_mtime (CrossrefClient.max_by_mtime best files))%Z.
Proof.
  revert best.
  induction files as [|f files IH]; intros best; cbn.
  - lia.
  - destruct (CrossrefClient.st_mtime best <? CrossrefClient.st_mtime f)%Z eqn:E.
    + apply Z.ltb_lt in E. specialize (IH f). lia.
    + apply IH.
Qed.

Lemma max_by_mtime_latest best files f :
  In f (best :: files) ->
  (CrossrefClient.st_mtime f
   <= CrossrefClient.st_mtime (CrossrefClient.max_by_mtime best files))%Z.
Proof.
  revert best.
  induction files as [|g files IH]; intros best [<-|H].
  - apply max_by_mtime_ge_best.
  - destruct H.
  - apply max_by_mtime_ge_best.
  - cbn. destruct (CrossrefClient.st_mtime best <? CrossrefClient.st_mtime g)%Z eqn:E.
    + apply IH. exact H.
    + destruct H as [<-|H].
      * apply Z.ltb_ge in E. pose proof (max_by_mtime_ge_best best files). lia.
      * apply IH. now right.
Qed.

Lemma glob_in suffix d f : In f (CrossrefClient.glob suffix d) -> In f d.
Proof. unfold CrossrefClient.glob. intros H. now apply filter_In in H. Qed.

(** After the renaming the directory holds the file under its new name,
    with the time stamp and the content it had. *)
Lemma rename_in f dst d :
  In f d ->
  String.eqb (CrossrefClient.name f) dst = false ->
  In {| CrossrefClient.name := dst;
        CrossrefClient.st_mtime := CrossrefClient.st_mtime f;
        CrossrefClient.content := CrossrefClient.content f |}
     (CrossrefClient.rename (CrossrefClient.name f) dst d).
Proof.
  intros Hin Hne. unfold CrossrefClient.rename.
  apply in_map_iff. exists f. split.
  - now rewrite String.eqb_refl.
  - apply filter_In. split; [exact Hin | now rewrite Hne].
Qed.

Section DownloadPdf.
Context {E Driver Element : Type}.
Variable sleep : Z -> CrossrefClient.World E -> CrossrefClient.World E.
Variable now : CrossrefClient.World E -> Z.
Variable session_get : string -> io (CrossrefClient.World E) CrossrefClient.Response.
Variable session_get_stream :
  string -> io (CrossrefClient.World E) CrossrefClient.StreamResponse.
Variable mkdir : string -> io (CrossrefClient.World E) unit.
Variable Chrome : string -> io (CrossrefClient.World E) Driver.
Variable driver_get : Driver -> string -> io (CrossrefClient.World E) unit.
Variable wait_clickable : Driver -> string -> io (CrossrefClient.World E) Element.
Variable find_element : Driver -> string -> io (CrossrefClient.World E) Element.
Variable click : Element -> io (CrossrefClient.World E) unit.
Variable current_url : Driver -> io (CrossrefClient.World E) string.
Variable driver_quit : Driver -> io (CrossrefClient.World E) unit.

Let download_pdf :=
  CrossrefClient.download_pdf sleep now session_get session_get_stream mkdir
    Chrome driver_get wait_clickable find_element click current_url driver_quit.
Let settled := Vocabulary.settled sleep.

Lemma collect_download_some output_dir filename w first rest :
  CrossrefClient.glob ".pdf" (CrossrefClient.dir (settled w)) = first :: rest ->
  CrossrefClient.collect_download sleep output_dir filename w
  = (Ok (Some (CrossrefClient.path_join output_dir filename)),
     collected filename (CrossrefClient.max_by_mtime first rest) (settled w)).
Proof.
  unfold settled, Vocabulary.settled, CrossrefClient.collect_download.
  intros Hglob. now rewrite Hglob.
Qed.

(** C10, amended.  When the interactive strategy has clicked a download
    affordance or taken the direct navigation, the output directory
    then (after the waiting) holds at least one file whose name ends in
    [.pdf], and closing the browser does not raise, [download_pdf]
    returns the canonical output path.  It takes a file of the
    directory whose name ends in [.pdf] and whose modification time no
    other such file of the directory exceeds, whenever and by whomever
    it was written, and gives it the canonical name unless it has it
    already, so that the directory holds under that name the content
    and time stamp of that file. *)
Theorem download_pdf_takes_latest_pdf
        doi output_dir w w1 driver w2 w3 clicked w4 w5 some_pdf stem :
  let doi_clean := CrossrefClient.clean_doi doi in
  let filename := CrossrefClient.pdf_filename doi_clean in
  let directory := CrossrefClient.dir (settled w5) in
  mkdir output_dir w = (Ok tt, w1) ->
  Chrome output_dir w1 = (Ok driver, w2) ->
  driver_get driver ("https://doi.org/" ++ doi_clean) w2 = (Ok tt, w3) ->
  CrossrefClient.click_download sleep wait_clickable find_element click driver w3
  = (Ok clicked, w4) ->
  CrossrefClient.try_direct_url driver_get current_url driver clicked w4
  = (Ok true, w5) ->
  In some_pdf directory ->
  CrossrefClient.name some_pdf = stem ++ ".pdf" ->
  (forall w0, fst (driver_quit driver w0) = Ok tt) ->
  exists latest_pdf,
    In latest_pdf directory
    /\ (exists latest_stem,
          CrossrefClient.name latest_pdf = latest_stem ++ ".pdf")
    /\ (forall f f_stem,
          In f directory ->
          CrossrefClient.name f = f_stem ++ ".pdf" ->
          (CrossrefClient.st_mtime f <= CrossrefClient.st_mtime latest_pdf)%Z)
    /\ download_pdf doi output_dir w
       = (Ok (Some (CrossrefClient.path_join output_dir filename)),
          snd (driver_quit driver (collected filename latest_pdf (settled w5))))
    /\ In {| CrossrefClient.name := filename;
             CrossrefClient.st_mtime := CrossrefClient.st_mtime latest_pdf;
             CrossrefClient.content := CrossrefClient.content latest_pdf |}
          (CrossrefClient.dir (collected filename latest_pdf (settled w5))).
Proof.
  intros doi_clean filename directory
         Hmk Hchrome Hget Hclick Hdirect Hsome Hstem Hquit.
  assert (Hlisted : forall f f_stem,
             In f directory -> CrossrefClient.name f = f_stem ++ ".pdf" ->
             In f (CrossrefClient.glob ".pdf" directory)).
  { intros f f_stem Hf Hname. unfold CrossrefClient.glob.
    apply filter_In. split; [exact Hf|].
    rewrite Hname. apply str_endswith_app. }
  destruct (CrossrefClient.glob ".pdf" directory) as [|first rest] eqn:Hglob.
  { destruct (Hlisted some_pdf stem Hsome Hstem). }
  set (latest_pdf := CrossrefClient.max_by_mtime first rest).
  assert (Hin : In latest_pdf (CrossrefClient.glob ".pdf" directory)).
  { rewrite Hglob. apply max_by_mtime_in. }
  exists latest_pdf.
  split; [now apply glob_in in Hin|].
  split.
  { unfold CrossrefClient.glob in Hin. apply filter_In in Hin as [_ Hend].
    now apply str_endswith_split. }
  split.
  { intros f f_stem Hf Hname. apply max_by_mtime_latest.
    apply (Hlisted f f_stem Hf Hname). }
  split.
  - unfold download_pdf, CrossrefClient.download_pdf.
    fold doi_clean. fold filename.
    unfold bind at 1. rewrite Hmk. rewrite Hchrome.
    unfold bind at 1, try_finally, try_except, CrossrefClient.interactive.
    unfold bind at 1. rewrite Hget.
    unfold bind at 1. rewrite Hclick.
    unfold bind at 1. rewrite Hdirect.
    rewrite (collect_download_some _ _ _ _ _ Hglob).
    fold latest_pdf.
    specialize (Hquit (collected filename latest_pdf (settled w5))).
    destruct (driver_quit driver (collected filename latest_pdf (settled w5)))
      as [[[]|e] w7]; cbn [fst] in Hquit; [reflexivity | discriminate].
  - unfold collected.
    destruct (String.eqb (CrossrefClient.name latest_pdf) filename) eqn:Hname; cbn.
    + apply String.eqb_eq in Hname. apply glob_in in Hin.
      rewrite <- Hname. now destruct latest_pdf.
    + apply rename_in; [now apply glob_in in Hin | exact Hname].
Qed.
End DownloadPdf.

(** C10, as stated, fails when closing the browser raises.  The second
    paper of [PAPERS] after the first: the click is made, the directory
    holds the PDF of the first paper, which is taken and renamed, and
    [download_pdf] raises what [driver.quit()] raised instead of
    returning the path. *)
Lemma download_pdf_found_but_quit_raises :
  let pdf := {| CrossrefClient.name := "10.3390_cryst9110586.pdf";
                CrossrefClient.st_mtime := 1700000000%Z;
                CrossrefClient.content := "%PDF-1.7 cryst9110586" |} in
  In pdf (CrossrefClient.dir (settled Scenario.idle Scenario.leftover))
  /\ CrossrefClient.name pdf = "10.3390_cryst9110586" ++ ".pdf"
  /\ CrossrefClient.click_download Scenario.idle
       (fun _ _ => Scenario.found tt) (fun _ _ => Scenario.found tt)
       (fun _ => Scenario.found tt) tt Scenario.leftover
     = (Ok true, Scenario.leftover)
  /\ CrossrefClient.download_pdf Scenario.idle Scenario.clock Scenario.no_catalog
       Scenario.no_stream (fun _ => Scenario.found tt) (fun _ => Scenario.found tt)
       (fun _ _ => Scenario.found tt) (fun _ _ => Scenario.found tt)
       (fun _ _ => Scenario.found tt) (fun _ => Scenario.found tt)
       (fun _ => Scenario.found "https://www.mdpi.com/2075-4701/14/11/1217")
       (fun _ => History.broken tt)
       "https://doi.org/10.3390/met14111217" "data/pdfs" Scenario.leftover
     = (Raise WebDriverException,
        {| CrossrefClient.dir :=
             [ {| CrossrefClient.name := "10.3390_met14111217.pdf";
                  CrossrefClient.st_mtime := 1700000000%Z;
                  CrossrefClient.content := "%PDF-1.7 cryst9110586" |} ];
           CrossrefClient.ext := tt |}).
Proof.
  cbv zeta. split; [now left|]. repeat split.
Qed.

(** The second paper of [PAPERS] after the first: the browser clicks and
    downloads nothing, and the PDF of the first paper, left in the
    directory, is returned under the name of the second. *)
Lemma download_pdf_takes_latest_pdf_witness :
  exists latest_pdf,
    CrossrefClient.name latest_pdf = "10.3390_cryst9110586.pdf"
    /\ CrossrefClient.download_pdf Scenario.idle Scenario.clock
         Scenario.no_catalog Scenario.no_stream
         (fun _ => Scenario.found tt) (fun _ => Scenario.found tt)
         (fun _ _ => Scenario.found tt) (fun _ _ => Scenario.found tt)
         (fun _ _ => Scenario.found tt) (fun _ => Scenario.found tt)
         (fun _ => Scenario.found "https://www.mdpi.com/2075-4701/14/11/1217")
         (fun _ => Scenario.found tt)
         "https://doi.org/10.3390/met14111217" "data/pdfs" Scenario.leftover
       = (Ok (Some "data/pdfs/10.3390_met14111217.pdf"),
          {| CrossrefClient.dir :=
               [ {| CrossrefClient.name := "10.3390_met14111217.pdf";
                    CrossrefClient.st_mtime :=
                      CrossrefClient.st_mtime latest_pdf;
                    CrossrefClient.content :=
                      CrossrefClient.content latest_pdf |} ];
             CrossrefClient.ext := tt |}).
Proof.
  destruct (download_pdf_takes_latest_pdf
              Scenario.idle Scenario.clock Scenario.no_catalog
              Scenario.no_stream (fun _ => Scenario.found tt)
              (fun _ => Scenario.found tt)
              (fun _ _ => Scenario.found tt) (fun _ _ => Scenario.found tt)
              (fun _ _ => Scenario.found tt) (fun _ => Scenario.found tt)
              (fun _ => Scenario.found "https://www.mdpi.com/2075-4701/14/11/1217")
              (fun _ => Scenario.found tt)
              "https://doi.org/10.3390/met14111217" "data/pdfs"
              Scenario.leftover Scenario.leftover tt Scenario.leftover
              Scenario.leftover true Scenario.leftover Scenario.leftover
              {| CrossrefClient.name := "10.3390_cryst9110586.pdf";
                 CrossrefClient.st_mtime := 1700000000%Z;
                 CrossrefClient.content := "%PDF-1.7 cryst9110586" |}
              "10.3390_cryst9110586"
              eq_refl eq_refl eq_refl eq_refl eq_refl
              (or_introl eq_refl) eq_refl (fun _ => eq_refl))
    as (latest_pdf & Hin & _ & _ & Hreturned & _).
  exists latest_pdf.
  destruct Hin as [<-|[]].
  split; [reflexivity | exact Hreturned].
Defined.

(* ================================================================== *)
(** * Further properties of the code *)
(* ================================================================== *)

(** ** The retry policy of [get_metadata] *)

Lemma attempts_raise_RetryError {W A : Type} (sleep : Z -> W -> W) (wait : Z -> Z)
      (remaining : nat) (attempt_number : Z) (f : io W A) (w : W) (e : exn) :
  fst (Tenacity.attempts sleep wait remaining attempt_number f w) = Raise e ->
  exists last, e = RetryError last.
Proof.
  revert attempt_number w.
  induction remaining as [|remaining IH]; intros attempt_number w;
    cbn [Tenacity.attempts]; destruct (f w) as [[a|e'] w']; cbn [fst];
    try discriminate.
  - intros H. injection H as <-. now exists e'.
  - apply IH.
Qed.

(** X7.  Whatever makes [get_metadata] fail, what it raises is a
    [RetryError]: the HTTP error, the connection error or the missing
    [message] key of the last attempt reaches the caller only wrapped in
    it. *)
Theorem get_metadata_raises_RetryError
        (W : Type) (sleep : Z -> W -> W)
        (session_get : string -> io W CrossrefClient.Response)
        (doi : string) (w : W) (e : exn) :
  fst (CrossrefClient.get_metadata sleep session_get doi w) = Raise e ->
  exists last, e = RetryError last.
Proof.
  unfold CrossrefClient.get_metadata, Tenacity.retry_3_exponential, Tenacity.retry.
  apply attempts_raise_RetryError.
Qed.

Lemma get_metadata_raises_RetryError_witness :
  exists last,
    fst (CrossrefClient.get_metadata Scenario.sleep Scenario.catalog_404
           "10.3390/none" [])
    = Raise (RetryError last).
Proof.
  destruct (get_metadata_raises_RetryError _ Scenario.sleep Scenario.catalog_404
              "10.3390/none" [] (RetryError (HTTPError 404)) eq_refl)
    as [last Hlast].
  exists last. now rewrite <- Hlast.
Defined.

Lemma requests_requested url w :
  Scenario.requests (Scenario.Requested url :: w) = S (Scenario.requests w).
Proof. reflexivity. Qed.

Lemma requests_slept seconds w :
  Scenario.requests (Scenario.sleep seconds w) = Scenario.requests w.
Proof. reflexivity. Qed.

Lemma slept_requested url w :
  History.slept (Scenario.Requested url :: w) = History.slept w.
Proof. reflexivity. Qed.

Lemma slept_slept seconds w :
  History.slept (Scenario.sleep seconds w) = (seconds + History.slept w)%Z.
Proof. reflexivity. Qed.

Ltac count_log :=
  cbn [snd];
  repeat first [ rewrite requests_requested | rewrite requests_slept
               | rewrite slept_requested | rewrite slept_slept ];
  lia.

Section Bounded.
Variable answers : Scenario.log -> string -> result CrossrefClient.Response.

Let attempt := CrossrefClient.get_metadata_attempt (History.session_get answers).

(** One attempt makes one request, to the address of the cleaned
    identifier, and nothing else. *)
Lemma attempt_log doi w :
  snd (attempt doi w) = Scenario.Requested (CrossrefClient.request_url doi) :: w.
Proof.
  unfold attempt, CrossrefClient.get_metadata_attempt, CrossrefClient.request_url,
    History.session_get, bind, lift.
  destruct (answers w _) as [r|e]; [|reflexivity].
  destruct (CrossrefClient.raise_for_status r); reflexivity.
Qed.

(** X8.  Against a catalog of any behaviour, one call of [get_metadata]
    makes at least one and at most three requests and sleeps at most 8
    seconds in all. *)
Theorem get_metadata_bounded doi w :
  let w' := snd (CrossrefClient.get_metadata Scenario.sleep
                   (History.session_get answers) doi w) in
  (Scenario.requests w + 1 <= Scenario.requests w' <= Scenario.requests w + 3)%nat
  /\ (History.slept w <= History.slept w' <= History.slept w + 8)%Z.
Proof.
  cbv zeta.
  unfold CrossrefClient.get_metadata, Tenacity.retry_3_exponential, Tenacity.retry.
  fold attempt. cbn [Nat.sub Tenacity.attempts].
  pose proof (attempt_log doi w) as H1.
  destruct (attempt doi w) as [[v1|e1] w1]; cbn [snd] in H1; subst w1;
    [count_log|].
  rewrite wait_after_first. cbn [Tenacity.attempts].
  match goal with |- context [attempt doi ?x] => pose proof (attempt_log doi x) as H2;
    destruct (attempt doi x) as [[v2|e2] w2] end; cbn [snd] in H2; subst w2;
    [count_log|].
  change (1 + 1)%Z with 2%Z. rewrite wait_after_second. cbn [Tenacity.attempts].
  match goal with |- context [attempt doi ?x] => pose proof (attempt_log doi x) as H3;
    destruct (attempt doi x) as [[v3|e3] w3] end; cbn [snd] in H3; subst w3;
    count_log.
Qed.
End Bounded.

(** ** Trimmed strings *)

Lemma lstrip_while_idem (p : ascii -> bool) (s : string) :
  lstrip_while p (lstrip_while p s) = lstrip_while p s.
Proof.
  induction s as [|c s IH]; cbn; [reflexivity|].
  destruct (p c) eqn:E; [exact IH | cbn; now rewrite E].
Qed.

Lemma rstrip_while_idem (p : ascii -> bool) (s : string) :
  rstrip_while p (rstrip_while p s) = rstrip_while p s.
Proof.
  unfold rstrip_while. now rewrite str_rev_involutive, lstrip_while_idem.
Qed.

(** Stripping on the left what ends in a character that stays: the
    result still ends in that character. *)
Lemma lstrip_while_keeps_last (p : ascii -> bool) (s : string) (c : ascii) :
  p c = false ->
  exists t, lstrip_while p (s ++ String c "") = t ++ String c "".
Proof.
  intros Hc. induction s as [|d s IH]; cbn.
  - rewrite Hc. now exists "".
  - destruct (p d); [exact IH | now exists (String d s)].
Qed.

(** Stripping on the right does not uncover anything on the left. *)
Lemma rstrip_while_keeps_lstripped (p : ascii -> bool) (s : string) :
  lstrip_while p s = s ->
  lstrip_while p (rstrip_while p s) = rstrip_while p s.
Proof.
  destruct s as [|c s]; [reflexivity|].
  cbn [lstrip_while]. destruct (p c) eqn:Hc.
  - (* the first character would have been stripped *)
    intros H. exfalso.
    assert (Hlen : forall u, (String.length (lstrip_while p u) <= String.length u)%nat).
    { induction u as [|d u IHu]; cbn; [lia|]. destruct (p d); cbn; lia. }
    specialize (Hlen s). rewrite H in Hlen. cbn in Hlen. lia.
  - intros _. unfold rstrip_while. rewrite str_rev_cons.
    destruct (lstrip_while_keeps_last p (str_rev s) c Hc) as [t Ht].
    rewrite Ht, str_rev_app. cbn. now rewrite Hc.
Qed.

(** What [strip] returns has nothing left to strip. *)
Lemma str_strip_idem (s : string) : str_strip (str_strip s) = str_strip s.
Proof.
  unfold str_strip.
  rewrite (rstrip_while_keeps_lstripped isspace (lstrip_while isspace s))
    by apply lstrip_while_idem.
  apply rstrip_while_idem.
Qed.

(** ** The authors of [extract_paper_info] *)

(** X9.  Every author name that [extract_paper_info] returns is
    non-empty and trimmed (stripping it again changes nothing), and
    there are at most as many names as entries under [author]: an entry
    whose name is empty after trimming is left out. *)
Theorem author_names_trimmed (items : list Py.json) (names : list string) :
  CrossrefClient.author_names items = Ok names ->
  Forall (fun name => name <> "" /\ str_strip name = name) names
  /\ (List.length names <= List.length items)%nat.
Proof.
  revert names.
  induction items as [|author items IH]; intros names H.
  - injection H as <-. split; [constructor | cbn; lia].
  - cbn [CrossrefClient.author_names] in H.
    apply rbind_ok in H as (given & _ & H).
    apply rbind_ok in H as (family & _ & H).
    apply rbind_ok in H as (rest & Hrest & H).
    destruct (IH rest Hrest) as [Hall Hlen].
    injection H as <-.
    match goal with
    | |- context [if ?b then _ else _] => destruct b eqn:E
    end.
    + split; [exact Hall | cbn; lia].
    + split; [|cbn; lia].
      constructor; [|exact Hall].
      split; [now apply String.eqb_neq | apply str_strip_idem].
Qed.

Lemma author_names_trimmed_witness :
  let items := [ JObj [("given", JStr " Jiahuan"); ("family", JStr "He ")];
                 JObj [("sequence", JStr "additional")];
                 JObj [("family", JStr "Consortium")] ] in
  CrossrefClient.author_names items = Ok ["Jiahuan He"; "Consortium"]
  /\ Forall (fun name => name <> "" /\ str_strip name = name)
            ["Jiahuan He"; "Consortium"].
Proof.
  intros items. split; [reflexivity|].
  exact (proj1 (author_names_trimmed items ["Jiahuan He"; "Consortium"] eq_refl)).
Defined.

(** ** The [PaperMetadata] of a complete document *)

Lemma validate_strs_map (names : list string) :
  Schemas.validate_strs (map JStr names) = Ok names.
Proof.
  induction names as [|n names IH]; cbn; [reflexivity | now rewrite IH].
Qed.

(** X10.  For a document of the catalog's shape that holds a string DOI,
    titles, container titles and a print date whose first entry starts
    with the year, [process_papers] builds the [PaperMetadata] with that
    DOI, the first title, the first container title as journal, the year
    in decimal as publication date, and the author names of
    [extract_paper_info]. *)
Theorem paper_metadata_of_complete_document
        metadata doi title titles journal journals print_date year parts more :
  catalog_shaped metadata = true ->
  dict_get "DOI" metadata = Some (JStr doi) ->
  dict_get "title" metadata = Some (JArr (JStr title :: titles)) ->
  dict_get "container-title" metadata = Some (JArr (JStr journal :: journals)) ->
  dict_get "published-print" metadata = Some (JObj print_date) ->
  dict_get "date-parts" print_date = Some (JArr (JArr (JInt year :: parts) :: more)) ->
  exists names,
    CrossrefClient.authors_of metadata = Ok names
    /\ paper_metadata_for metadata
       = Ok {| Schemas.doi := doi;
               Schemas.title := title;
               Schemas.authors := names;
               Schemas.publication_date := Some (str_int year);
               Schemas.journal := Some journal |}.
Proof.
  intros Hshape Hdoi Htitle Hjournal Hprint Hparts.
  unfold catalog_shaped in Hshape.
  apply andb_true_iff in Hshape as [Hshape _].
  apply andb_true_iff in Hshape as [Hshape _].
  apply andb_true_iff in Hshape as [Hauthor _].
  destruct (authors_of_shaped _ Hauthor) as [names Hnames].
  exists names. split; [exact Hnames|].
  unfold paper_metadata_for, CrossrefClient.extract_paper_info.
  rewrite Hnames. cbn [rbind].
  unfold CrossrefClient.first_or_empty, CrossrefClient.print_date_of,
    dict_get_default.
  rewrite Htitle, Hjournal, Hprint. cbn.
  unfold dict_get_default. rewrite Hparts, Hdoi. cbn.
  unfold Schemas.new_PaperMetadata. cbn.
  now rewrite validate_strs_map.
Qed.

Lemma paper_metadata_of_complete_document_witness :
  paper_metadata_for Scenario.cryst9110586
  = Ok {| Schemas.doi := "10.3390/cryst9110586";
          Schemas.title := "Effect of ECAP on the Microstructure";
          Schemas.authors := ["Jiahuan He"];
          Schemas.publication_date := Some "2019";
          Schemas.journal := Some "Crystals" |}.
Proof.
  destruct (paper_metadata_of_complete_document Scenario.cryst9110586
              "10.3390/cryst9110586" "Effect of ECAP on the Microstructure" []
              "Crystals" []
              [("date-parts", JArr [JArr [JInt 2019; JInt 11; JInt 8]])]
              2019 [JInt 11; JInt 8] []
              eq_refl eq_refl eq_refl eq_refl eq_refl eq_refl)
    as (names & Hnames & Hpm).
  rewrite Hpm. cbn in Hnames. injection Hnames as <-. reflexivity.
Defined.

(** ** Validation of [MechanicalProperty] *)

Lemma rbind_raise {A B} (r : result A) (k : A -> result B) (e : exn) :
  rbind r k = Raise e ->
  r = Raise e \/ exists a, r = Ok a /\ k a = Raise e.
Proof.
  destruct r as [a|e']; cbn; intros H; [right; eauto | left].
  now injection H as <-.
Qed.

Section MechanicalPropertyFacts.
Variable str_to_float : string -> result spec_float.

Let new_MechanicalProperty := Schemas.new_MechanicalProperty str_to_float.

Lemma validate_str_raises x e :
  Schemas.validate_str x = Raise e -> e = ValidationError.
Proof. destruct x; cbn; congruence. Qed.

Lemma validate_dict_raises x e :
  Schemas.validate_dict x = Raise e -> e = ValidationError.
Proof. destruct x; cbn; congruence. Qed.

Lemma validate_float_raises x e :
  Schemas.validate_float str_to_float x = Raise e -> e = ValidationError.
Proof.
  destruct x as [| b | n | f | s | l | d]; cbn; try congruence.
  - destruct (float_of_int n); congruence.
  - destruct (str_to_float s); congruence.
Qed.

Lemma required_raises {T} (validate : Py.json -> result T) arg e :
  (forall x e, validate x = Raise e -> e = ValidationError) ->
  Schemas.required validate arg = Raise e -> e = ValidationError.
Proof. intros Hv. destruct arg; cbn; [apply Hv | congruence]. Qed.

Lemma optional_raises {T} (validate : Py.json -> result T) default arg e :
  (forall x e, validate x = Raise e -> e = ValidationError) ->
  Schemas.optional validate default arg = Raise e -> e = ValidationError.
Proof.
  intros Hv. destruct arg as [x|]; cbn; [|congruence].
  destruct x; cbn; try congruence;
    match goal with
    | |- rbind (validate ?x) _ = _ -> _ =>
        destruct (validate x) eqn:E; cbn; [congruence|];
        intros H; injection H as <-; exact (Hv _ _ E)
    end.
Qed.

Ltac field_raises H :=
  apply rbind_raise in H as [H | (? & _ & H)];
  [ first [ eapply required_raises in H; [exact H|]
          | eapply optional_raises in H; [exact H|] ];
    first [ exact validate_str_raises | exact validate_float_raises
          | exact validate_dict_raises ]
  | ].

(** Whatever is wrong with the arguments, the constructor raises a
    [ValidationError]. *)
Lemma new_MechanicalProperty_raises prop e :
  new_MechanicalProperty prop = Raise e -> e = ValidationError.
Proof.
  unfold new_MechanicalProperty, Schemas.new_MechanicalProperty. intros H.
  do 9 field_raises H. discriminate.
Qed.

(** X11.  A record that lacks one of the required fields [material],
    [property_name], [value], [unit] is refused by [MechanicalProperty]
    with a [ValidationError], whatever its other fields hold. *)
Theorem required_field_missing prop key :
  In key History.MechanicalProperty_required ->
  dict_get key prop = None ->
  new_MechanicalProperty prop = Raise ValidationError.
Proof.
  intros Hkey Hnone.
  destruct (new_MechanicalProperty prop) as [p|e] eqn:H.
  - exfalso. unfold new_MechanicalProperty, Schemas.new_MechanicalProperty in H.
    apply rbind_ok in H as (material & Hmaterial & H).
    apply rbind_ok in H as (condition & _ & H).
    apply rbind_ok in H as (property_name & Hname & H).
    apply rbind_ok in H as (value & Hvalue & H).
    apply rbind_ok in H as (unit_ & Hunit & H).
    cbn in Hkey.
    destruct Hkey as [<- | [<- | [<- | [<- | []]]]];
      rewrite Hnone in *; discriminate.
  - f_equal. exact (new_MechanicalProperty_raises _ _ H).
Qed.

Lemma dict_get_app_other key k v (d : dict) :
  String.eqb k key = false ->
  dict_get key (d ++ [(k, v)])%list = dict_get key d.
Proof.
  intros Hne. induction d as [|[k' x] d IH]; cbn.
  - now rewrite Hne.
  - now destruct (String.eqb k' key).
Qed.

(** X12.  A key that names no field of [MechanicalProperty] is ignored:
    with or without it the record validates to the same result. *)
Theorem unknown_key_ignored prop key v :
  ~ In key History.MechanicalProperty_fields ->
  new_MechanicalProperty (prop ++ [(key, v)])%list = new_MechanicalProperty prop.
Proof.
  intros Hnot.
  assert (Hget : forall field, In field History.MechanicalProperty_fields ->
                   dict_get field (prop ++ [(key, v)])%list = dict_get field prop).
  { intros field Hfield. apply dict_get_app_other.
    apply String.eqb_neq. intros ->. now apply Hnot. }
  unfold new_MechanicalProperty, Schemas.new_MechanicalProperty.
  rewrite !Hget by (cbn; tauto).
  reflexivity.
Qed.
End MechanicalPropertyFacts.

Lemma required_field_missing_witness :
  Schemas.new_MechanicalProperty float_of_str
    [("material", JStr "Cu"); ("property_name", JStr "YS"); ("value", JInt 210)]
  = Raise ValidationError.
Proof.
  apply (required_field_missing float_of_str _ "unit"); [cbn; tauto | reflexivity].
Defined.

Lemma unknown_key_ignored_witness :
  Schemas.new_MechanicalProperty float_of_str
    ([("material", JStr "Cu"); ("property_name", JStr "YS"); ("value", JInt 210);
      ("unit", JStr "MPa")] ++ [("grain_size", JStr "5 um")])%list
  = Schemas.new_MechanicalProperty float_of_str
      [("material", JStr "Cu"); ("property_name", JStr "YS"); ("value", JInt 210);
       ("unit", JStr "MPa")].
Proof.
  apply (unknown_key_ignored float_of_str).
  cbn. intros [H|[H|[H|[H|[H|[H|[H|[H|[H|[]]]]]]]]]]; discriminate.
Defined.

(** ** The conversion of raw records *)

Lemma float_of_str_raises s e : float_of_str s = Raise e -> e = ValueError.
Proof.
  unfold float_of_str.
  destruct (read_sign _) as [neg body].
  destruct (_ || _); [discriminate|].
  destruct (String.eqb _ "nan"); [discriminate|].
  destruct (read_decimal body) as [[m e10]|]; congruence.
Qed.

Section Conversion.
Variable str_to_float : string -> result spec_float.

Let convert_property := LLMExtractor.convert_property str_to_float.
Let convert_properties := LLMExtractor.convert_properties str_to_float.

(** X13.  A record whose [value] is a string is read with every comma
    removed: when what is left is a number for [float], a record built
    from it has that number as [value]; when it is not, the conversion
    raises [ValueError] and the record is left out of the batch. *)
Theorem value_string_without_commas d s :
  dict_get "value" d = Some (JStr s) ->
  match float_of_str (str_replace "," "" s) with
  | Ok f =>
      convert_property (JObj d)
      = Schemas.new_MechanicalProperty str_to_float
          (dict_set "value" (JFloat f) d)
      /\ forall p, convert_property (JObj d) = Ok p -> Schemas.value p = f
  | Raise _ =>
      convert_property (JObj d) = Raise ValueError
      /\ forall before after,
           convert_properties (before ++ JObj d :: after)%list
           = (convert_properties before ++ convert_properties after)%list
  end.
Proof.
  intros Hv.
  assert (Hc : convert_property (JObj d)
               = let* f := float_of_str (str_replace "," "" s) in
                 Schemas.new_MechanicalProperty str_to_float
                   (dict_set "value" (JFloat f) d)).
  { unfold convert_property, LLMExtractor.convert_property, py_get,
      dict_get_default.
    rewrite Hv. cbn [rbind].
    now destruct (float_of_str (str_replace "," "" s)). }
  destruct (float_of_str (str_replace "," "" s)) as [f|e] eqn:Hf;
    cbn [rbind] in Hc.
  - split; [exact Hc|].
    intros p Hp. rewrite Hc in Hp.
    exact (new_MechanicalProperty_value _ _ _ _ (dict_get_set _ _ _) Hp).
  - apply float_of_str_raises in Hf. subst e.
    split; [exact Hc|].
    intros before after.
    unfold convert_properties. rewrite convert_properties_app.
    cbn [LLMExtractor.convert_properties].
    fold convert_property. now rewrite Hc.
Qed.

(** X14.  The records [extract_from_paper] keeps are exactly the
    conversions that succeeded: a record is in the result if and only if
    some raw record converts to it, and the result is never longer than
    the raw list. *)
Theorem convert_properties_members raw :
  (forall p, In p (convert_properties raw)
             <-> exists prop, In prop raw /\ convert_property prop = Ok p)
  /\ (List.length (convert_properties raw) <= List.length raw)%nat.
Proof.
  unfold convert_properties, convert_property.
  induction raw as [|prop raw [IHin IHlen]]; cbn [LLMExtractor.convert_properties].
  - split; [|cbn; lia].
    intros p. split; [intros [] | intros (prop & [] & _)].
  - destruct (LLMExtractor.convert_property str_to_float prop) as [q|e] eqn:Hq.
    + split; [|cbn; lia].
      intros p. split.
      * intros [<-|Hin]; [exists prop; split; [now left | exact Hq]|].
        apply IHin in Hin as (prop' & Hin' & Hp).
        exists prop'. split; [now right | exact Hp].
      * intros (prop' & [<-|Hin'] & Hp).
        -- rewrite Hq in Hp. injection Hp as <-. now left.
        -- right. apply IHin. now exists prop'.
    + split; [|cbn; lia].
      intros p. split.
      * intros Hin. apply IHin in Hin as (prop' & Hin' & Hp).
        exists prop'. split; [now right | exact Hp].
      * intros (prop' & [<-|Hin'] & Hp).
        -- rewrite Hq in Hp. discriminate.
        -- apply IHin. now exists prop'.
Qed.
End Conversion.

Lemma value_string_without_commas_witness :
  let record (v : string) :=
    [("material", JStr "Cu"); ("property_name", JStr "UTS");
     ("value", JStr v); ("unit", JStr "MPa")] in
  (exists p, LLMExtractor.convert_property float_of_str (JObj (record "12,345")) = Ok p
             /\ float_repr (Schemas.value p) = "12345.0")
  /\ LLMExtractor.convert_property float_of_str (JObj (record "about 210"))
     = Raise ValueError.
Proof.
  intros record. split.
  - pose proof (value_string_without_commas float_of_str (record "12,345")
                  "12,345" eq_refl) as H.
    set (r := float_of_str (str_replace "," "" "12,345")) in H.
    vm_compute in r. subst r. cbv beta iota in H.
    destruct H as [_ H].
    eexists. split; [reflexivity|].
    rewrite (H _ eq_refl). reflexivity.
  - pose proof (value_string_without_commas float_of_str (record "about 210")
                  "about 210" eq_refl) as H.
    set (r := float_of_str (str_replace "," "" "about 210")) in H.
    vm_compute in r. subst r. cbv beta iota in H.
    exact (proj1 H).
Defined.

(** ** [extract_from_paper] as a whole *)

Lemma concat_cons (x : string) (xs : list string) :
  String.concat "" (x :: xs) = x ++ String.concat "" xs.
Proof. destruct xs; cbn; [now rewrite str_app_nil | reflexivity]. Qed.

Lemma page_texts_from (pages : list string) (text : string) :
  fold_left (fun text page => text ++ page ++ chr "010") pages text
  = text ++ String.concat "" (map (fun page => page ++ chr "010") pages).
Proof.
  revert text.
  induction pages as [|page pages IH]; intros text.
  - cbn. now rewrite str_app_nil.
  - cbn [fold_left map]. rewrite IH, concat_cons. now rewrite str_app_assoc.
Qed.

Lemma substring_prefix (head tail : string) :
  substring 0 (String.length head) (head ++ tail) = head.
Proof.
  induction head as [|c head IH]; cbn.
  - now destruct tail.
  - now rewrite IH.
Qed.

Section ExtractFromPaper.
Context {W : Type}.
Variable sleep : Z -> W -> W.
Variable now : W -> Schemas.datetime.
Variable read_pdf_pages : string -> io W (list string).
Variable chat_completions_create :
  string -> string -> string -> io W (list (option string)).
Variable json_loads : string -> result Py.json.
Variable str_to_float : string -> result spec_float.
Variable model : string.

Let extract_properties :=
  LLMExtractor.extract_properties sleep chat_completions_create json_loads model.
Let extract_from_paper :=
  LLMExtractor.extract_from_paper sleep now read_pdf_pages
    chat_completions_create json_loads str_to_float model.

(** What [extract_properties] returns once the service has answered. *)
Lemma extract_properties_answered text (pm : Schemas.PaperMetadata)
      w content more w' data :
  chat_completions_create model LLMExtractor.system_prompt
    (LLMExtractor.user_prompt (Schemas.title pm) text) w
  = (Ok (Some content :: more), w') ->
  json_loads content = Ok data ->
  extract_properties text (LLMExtractor.model_dump_PaperMetadata pm) w
  = (Ok (LLMExtractor.handle_response_format data), w').
Proof.
  intros Hcall Hdata.
  unfold extract_properties. rewrite extract_properties_once.
  unfold LLMExtractor.extract_properties_attempt, try_except, bind, lift.
  cbn [LLMExtractor.model_dump_PaperMetadata dict_get_default dict_get
       String.eqb Ascii.eqb Bool.eqb py_str].
  rewrite Hcall. cbn [LLMExtractor.parse_content]. now rewrite Hdata.
Qed.

Lemma extract_text_pages pdf_path w pages w' :
  read_pdf_pages pdf_path w = (Ok pages, w') ->
  LLMExtractor.extract_text_from_pdf read_pdf_pages pdf_path w
  = (Ok (History.text_of pages), w').
Proof.
  intros Hread. unfold LLMExtractor.extract_text_from_pdf, bind, ret.
  rewrite Hread. now rewrite page_texts_from.
Qed.

(** X15.  When the PDF is read and the reasoning service answers with a
    document in which [extract_properties] finds the list [raw],
    [extract_from_paper] asks the service once, about the pages in order
    (a line feed after each) under the title of the metadata, and
    returns the [ExtractedData] of the unchanged metadata, the records
    of [raw] that convert, the instant of the clock after the call and
    the method [llm]. *)
Theorem extract_from_paper_composes pdf_path pm w pages w1 content more w2 data raw :
  read_pdf_pages pdf_path w = (Ok pages, w1) ->
  chat_completions_create model LLMExtractor.system_prompt
    (LLMExtractor.user_prompt (Schemas.title pm) (History.text_of pages)) w1
  = (Ok (Some content :: more), w2) ->
  json_loads content = Ok data ->
  LLMExtractor.handle_response_format data = JArr raw ->
  extract_from_paper pdf_path pm w
  = (Ok {| Schemas.paper_metadata := pm;
           Schemas.mechanical_properties :=
             LLMExtractor.convert_properties str_to_float raw;
           Schemas.extraction_timestamp := now w2;
           Schemas.extraction_method := "llm" |},
     w2).
Proof.
  intros Hread Hcall Hdata Hraw.
  unfold extract_from_paper, LLMExtractor.extract_from_paper.
  unfold bind at 1. rewrite (extract_text_pages _ _ _ _ Hread).
  unfold bind at 1. fold extract_properties.
  rewrite (extract_properties_answered _ _ _ _ _ _ _ Hcall Hdata).
  rewrite Hraw. reflexivity.
Qed.

(** X16.  When the answer is an object whose [properties] field holds
    something no loop can run over ([null], a number, a truth value),
    [extract_properties] returns that value and [extract_from_paper]
    raises [TypeError]: the whole paper fails, it does not come out with
    an empty list. *)
Theorem extract_from_paper_not_iterable
        pdf_path pm w pages w1 content more w2 fields v :
  read_pdf_pages pdf_path w = (Ok pages, w1) ->
  chat_completions_create model LLMExtractor.system_prompt
    (LLMExtractor.user_prompt (Schemas.title pm) (History.text_of pages)) w1
  = (Ok (Some content :: more), w2) ->
  json_loads content = Ok (JObj fields) ->
  dict_get "properties" fields = Some v ->
  py_iter v = Raise TypeError ->
  extract_from_paper pdf_path pm w = (Raise TypeError, w2).
Proof.
  intros Hread Hcall Hdata Hv Hiter.
  unfold extract_from_paper, LLMExtractor.extract_from_paper.
  unfold bind at 1. rewrite (extract_text_pages _ _ _ _ Hread).
  unfold bind at 1. fold extract_properties.
  rewrite (extract_properties_answered _ _ _ _ _ _ _ Hcall Hdata).
  unfold LLMExtractor.handle_response_format, dict_has, dict_get_default.
  rewrite Hv. unfold bind, lift. now rewrite Hiter.
Qed.

(** X17.  Only the first 8000 characters of the text reach the service:
    two texts that agree on them make [extract_properties] ask the same
    question and return the same. *)
Theorem text_beyond_8000_ignored head tail1 tail2 paper_info w :
  String.length head = 8000%nat ->
  extract_properties (head ++ tail1) paper_info w
  = extract_properties (head ++ tail2) paper_info w.
Proof.
  intros Hlen.
  unfold extract_properties, LLMExtractor.extract_properties,
    LLMExtractor.extract_properties_attempt, LLMExtractor.user_prompt, str_take.
  rewrite <- Hlen. now rewrite !substring_prefix.
Qed.
End ExtractFromPaper.

Lemma extract_from_paper_composes_witness :
  let good := JObj [("material", JStr "Cu"); ("property_name", JStr "UTS");
                    ("value", JStr "1,250"); ("unit", JStr "MPa")] in
  let bad := JObj [("material", JStr "Cu"); ("value", JStr "high")] in
  exists data w',
    LLMExtractor.extract_from_paper Scenario.sleep (fun _ => 1700000500%Z)
      (History.pdf_with ["Table 1"; "UTS 1,250 MPa"])
      (History.service_says (Some "an object with one list"))
      (History.loads_as (JObj [("properties", JArr [good; bad])]))
      float_of_str "gpt-4.1" "data/pdfs/10.3390_met14111217.pdf"
      History.copper []
    = (Ok data, w')
    /\ List.length (Schemas.mechanical_properties data) = 1%nat
    /\ Schemas.paper_metadata data = History.copper
    /\ Scenario.questions w' = 1%nat.
Proof.
  intros good bad. eexists. eexists. split.
  - apply (extract_from_paper_composes Scenario.sleep (fun _ => 1700000500%Z)
             (History.pdf_with ["Table 1"; "UTS 1,250 MPa"])
             (History.service_says (Some "an object with one list"))
             (History.loads_as (JObj [("properties", JArr [good; bad])]))
             float_of_str "gpt-4.1" "data/pdfs/10.3390_met14111217.pdf"
             History.copper [] ["Table 1"; "UTS 1,250 MPa"] []
             "an object with one list" []
             _ (JObj [("properties", JArr [good; bad])]) [good; bad]);
      reflexivity.
  - repeat split.
Defined.

Lemma extract_from_paper_not_iterable_witness :
  fst (LLMExtractor.extract_from_paper Scenario.sleep (fun _ => 1700000500%Z)
         (History.pdf_with ["Table 1"])
         (History.service_says (Some "an object without a list"))
         (History.loads_as (JObj [("properties", JNull)]))
         float_of_str "gpt-4.1" "data/pdfs/10.3390_met14111217.pdf"
         History.copper [])
  = Raise TypeError.
Proof.
  erewrite (extract_from_paper_not_iterable Scenario.sleep (fun _ => 1700000500%Z)
              (History.pdf_with ["Table 1"])
              (History.service_says (Some "an object without a list"))
              (History.loads_as (JObj [("properties", JNull)]))
              float_of_str "gpt-4.1" "data/pdfs/10.3390_met14111217.pdf"
              History.copper [] ["Table 1"] []
              "an object without a list" [] _ [("properties", JNull)] JNull);
    reflexivity.
Defined.

Lemma text_beyond_8000_ignored_witness :
  LLMExtractor.extract_properties Scenario.sleep
    (History.service_says (Some "a list")) (History.loads_as (JArr []))
    "gpt-4.1" (zeros 8000 ++ "Table 7. Hardness") [] []
  = LLMExtractor.extract_properties Scenario.sleep
      (History.service_says (Some "a list")) (History.loads_as (JArr []))
      "gpt-4.1" (zeros 8000 ++ "") [] [].
Proof.
  apply (text_beyond_8000_ignored Scenario.sleep
           (History.service_says (Some "a list")) (History.loads_as (JArr []))
           "gpt-4.1" (zeros 8000)).
  vm_compute. reflexivity.
Defined.

(** ** [process_papers] and [main] *)

Section Pipeline.
Context {W : Type}.
Variable get_metadata : string -> io W Py.json.
Variable download_pdf : string -> string -> io W (option string).
Variable extract_from_paper :
  string -> Schemas.PaperMetadata -> io W Schemas.ExtractedData.
Variable api_key : option string.
Variable mkdir : string -> io W unit.

Let process_each := Main.process_each get_metadata download_pdf extract_from_paper.
Let process_papers_over :=
  Main.process_papers_over get_metadata download_pdf extract_from_paper.

Lemma process_each_length papers results w :
  (List.length (fst (process_each papers results w))
   <= List.length results + List.length papers)%nat.
Proof.
  unfold process_each. revert results w.
  induction papers as [|paper papers IH]; intros results w;
    cbn [Main.process_each].
  - cbn. lia.
  - destruct (Main.process_paper get_metadata download_pdf extract_from_paper
                                 paper w) as [[[entry|]|e] w1].
    + specialize (IH (results ++ [entry])%list w1).
      rewrite length_app in IH. cbn in IH |- *. lia.
    + specialize (IH results w1). cbn. lia.
    + specialize (IH results w1). cbn. lia.
Qed.

(** X18.  The loop adds at most one entry per paper and drops none it
    was given: the list it returns starts with the list it started from
    and is longer by at most the number of papers. *)
Theorem process_each_at_most_one_each papers results w :
  (exists added, fst (process_each papers results w) = (results ++ added)%list
                 /\ (List.length added <= List.length papers)%nat).
Proof.
  exists (fst (process_each papers [] w)).
  unfold process_each. rewrite process_each_results. cbn [fst].
  split; [reflexivity|].
  pose proof (process_each_length papers [] w) as H. cbn in H. exact H.
Qed.

(** X19.  Without an API key in the environment, or with an empty one,
    [process_papers] raises [ValueError] before it touches anything: no
    directory is made and no paper is looked up. *)
Theorem no_api_key_no_run key papers w :
  key = None \/ key = Some "" ->
  process_papers_over key mkdir papers w = (Raise ValueError, w).
Proof. intros [-> | ->]; reflexivity. Qed.

Variable str_datetime : Schemas.datetime -> string.
Variable now : W -> Schemas.datetime.
Variable json_dumps : Py.json -> string.
Variable write_text : string -> string -> io W unit.

(** X20.  When the setup and the writing of the file succeed, [main]
    writes to [output/results.json] the dump of the results of the loop
    over [PAPERS], built at the instant the loop ended; the
    [papers_processed] it reports lies between 0 and 2. *)
Theorem main_saves_the_results w w0 w' :
  Main.setup api_key mkdir w = (Ok tt, w0) ->
  let results := fst (process_each Main.PAPERS [] w0) in
  let w1 := snd (process_each Main.PAPERS [] w0) in
  let unified := Main.unify (now w1) results in
  write_text "output/results.json"
    (json_dumps (JObj (Main.dump_UnifiedResults str_datetime unified))) w1
  = (Ok tt, w') ->
  Main.main (Main.process_papers get_metadata download_pdf extract_from_paper
                                 api_key mkdir)
            (Main.save_results str_datetime now json_dumps write_text) w
  = (Ok tt, w')
  /\ (0 <= Schemas.papers_processed unified <= 2)%Z.
Proof.
  intros Hsetup results w1 unified Hwrite. split.
  - unfold Main.main, Main.process_papers, Main.process_papers_over.
    unfold bind at 1. unfold bind at 1. rewrite Hsetup.
    fold process_each.
    destruct (process_each Main.PAPERS [] w0) as [rs w2] eqn:Hloop.
    cbn [fst snd] in *. subst results w1.
    unfold bind at 1. unfold Main.save_results. unfold bind at 1.
    fold unified. now rewrite Hwrite.
  - pose proof (process_each_length Main.PAPERS [] w0) as Hlen.
    cbn [Schemas.papers_processed unified Main.unify].
    fold results in Hlen. cbn in Hlen. lia.
Qed.
End Pipeline.

Lemma no_api_key_no_run_witness :
  Main.process_papers_over
    (CrossrefClient.get_metadata Scenario.sleep Scenario.catalog_some)
    Scenario.download_found Scenario.extract_nothing
    None Scenario.mkdir_ok Main.PAPERS []
  = (Raise ValueError, []).
Proof.
  apply (no_api_key_no_run
           (CrossrefClient.get_metadata Scenario.sleep Scenario.catalog_some)
           Scenario.download_found Scenario.extract_nothing Scenario.mkdir_ok).
  now left.
Defined.

Lemma main_saves_the_results_witness :
  let write (path text : string) : io Scenario.log unit :=
    fun w => (Ok tt, Scenario.Asked path text :: w) in
  exists w',
    Main.main
      (Main.process_papers
         (CrossrefClient.get_metadata Scenario.sleep Scenario.catalog_some)
         Scenario.download_found Scenario.extract_nothing
         (Some "key") Scenario.mkdir_ok)
      (Main.save_results (fun _ => "2024-11-03") (fun _ => 0%Z)
                         (fun _ => "the document") write) []
    = (Ok tt, w')
    /\ Scenario.requests w' = 2%nat.
Proof.
  intros write. eexists. split.
  - apply (main_saves_the_results
             (CrossrefClient.get_metadata Scenario.sleep Scenario.catalog_some)
             Scenario.download_found Scenario.extract_nothing
             (Some "key") Scenario.mkdir_ok (fun _ => "2024-11-03") (fun _ => 0%Z)
             (fun _ => "the document") write [] []); reflexivity.
  - vm_compute. reflexivity.
Defined.

(** ** The canonical file name *)

Lemma prefix_nil (s : string) : prefix "" s = true.
Proof. now destruct s. Qed.

Lemma contains_slash_cons (c : ascii) (s : string) :
  str_contains "/" (String c s) = (Ascii.eqb "/" c || str_contains "/" s)%bool.
Proof.
  cbn [str_contains prefix].
  destruct (ascii_dec "/" c) as [<-|ne].
  - now rewrite prefix_nil.
  - apply Ascii.eqb_neq in ne. now rewrite ne.
Qed.

Lemma contains_slash_app (a b : string) :
  str_contains "/" (a ++ b)
  = (str_contains "/" a || str_contains "/" b)%bool.
Proof.
  induction a as [|c a IH].
  - cbn. now destruct b.
  - change (String c a ++ b) with (String c (a ++ b)).
    rewrite !contains_slash_cons, IH. now rewrite orb_assoc.
Qed.

Lemma replace_slash_no_slash (s : string) :
  str_contains "/" (str_replace "/" "_" s) = false.
Proof.
  unfold str_replace.
  induction s as [|c s IH]; [reflexivity|].
  cbn [replace_from prefix String.length Nat.sub].
  destruct (ascii_dec "/" c) as [<-|ne].
  - rewrite prefix_nil. cbn [append]. rewrite contains_slash_cons. exact IH.
  - rewrite contains_slash_cons, IH.
    apply Ascii.eqb_neq in ne. now rewrite ne.
Qed.

(** X21.  The file name [download_pdf] makes of an identifier holds no
    slash and ends in [.pdf]: it names one entry of the output
    directory, and the search for PDF files there finds it. *)
Theorem pdf_filename_is_one_component (doi_clean : string) :
  str_contains "/" (CrossrefClient.pdf_filename doi_clean) = false
  /\ str_endswith ".pdf" (CrossrefClient.pdf_filename doi_clean) = true
  /\ forall mtime data,
       CrossrefClient.glob ".pdf"
         [ {| CrossrefClient.name := CrossrefClient.pdf_filename doi_clean;
              CrossrefClient.st_mtime := mtime;
              CrossrefClient.content := data |} ]
       <> [].
Proof.
  assert (Hend : str_endswith ".pdf" (CrossrefClient.pdf_filename doi_clean) = true).
  { unfold str_endswith, CrossrefClient.pdf_filename.
    rewrite str_rev_app. apply prefix_app. }
  split; [|split; [exact Hend|]].
  - unfold CrossrefClient.pdf_filename.
    rewrite contains_slash_app, replace_slash_no_slash. reflexivity.
  - intros mtime data. unfold CrossrefClient.glob. cbn [filter CrossrefClient.name].
    rewrite Hend. discriminate.
Qed.

(** ** Waiting for the download *)

Section Waiting.
Context {E : Type}.
Variable sleep : Z -> CrossrefClient.World E -> CrossrefClient.World E.

Let seconds_later := History.seconds_later sleep.

(** X22.  The wait for temporary files ends after at most 30 sleeps of
    one second: it sleeps [k] times for some [k] up to the bound, a
    temporary file was listed before each of these sleeps, and when it
    stopped before the bound no temporary file is listed any more. *)
Theorem wait_for_download_bounded (bound : nat) (w : CrossrefClient.World E) :
  exists k,
    (k <= bound)%nat
    /\ CrossrefClient.wait_for_download sleep bound w = seconds_later k w
    /\ (forall j, (j < k)%nat ->
          CrossrefClient.has_temp_files
            (CrossrefClient.dir (seconds_later j w)) = true)
    /\ (k = bound
        \/ CrossrefClient.has_temp_files
             (CrossrefClient.dir (seconds_later k w)) = false).
Proof.
  revert w.
  induction bound as [|bound IH]; intros w.
  - exists 0%nat. cbn. repeat split; [lia | intros j Hj; lia | now left].
  - cbn [CrossrefClient.wait_for_download].
    destruct (CrossrefClient.has_temp_files (CrossrefClient.dir w)) eqn:Htemp.
    + destruct (IH (sleep 1 w)) as (k & Hk & Heq & Hbefore & Hend).
      exists (S k). unfold seconds_later in *. cbn [History.seconds_later].
      repeat split; [lia | exact Heq | | ].
      * intros [|j] Hj; [exact Htemp | apply Hbefore; lia].
      * destruct Hend as [-> | Hend]; [now left | now right].
    + exists 0%nat. unfold seconds_later. cbn [History.seconds_later].
      repeat split; [lia | intros j Hj; lia | now right].
Qed.
End Waiting.

(** ** [download_pdf] as a whole *)

Section DownloadOutcomes.
Context {E Driver Element : Type}.
Variable sleep : Z -> CrossrefClient.World E -> CrossrefClient.World E.
Variable now : CrossrefClient.World E -> Z.
Variable session_get : string -> io (CrossrefClient.World E) CrossrefClient.Response.
Variable session_get_stream :
  string -> io (CrossrefClient.World E) CrossrefClient.StreamResponse.
Variable mkdir : string -> io (CrossrefClient.World E) unit.
Variable Chrome : string -> io (CrossrefClient.World E) Driver.
Variable driver_get : Driver -> string -> io (CrossrefClient.World E) unit.
Variable wait_clickable : Driver -> string -> io (CrossrefClient.World E) Element.
Variable find_element : Driver -> string -> io (CrossrefClient.World E) Element.
Variable click : Element -> io (CrossrefClient.World E) unit.
Variable current_url : Driver -> io (CrossrefClient.World E) string.
Variable driver_quit : Driver -> io (CrossrefClient.World E) unit.

Let download_pdf :=
  CrossrefClient.download_pdf sleep now session_get session_get_stream mkdir
    Chrome driver_get wait_clickable find_element click current_url driver_quit.
Let fallback :=
  CrossrefClient._download_pdf_requests_fallback sleep now session_get
    session_get_stream.
Let interactive :=
  CrossrefClient.interactive sleep driver_get wait_clickable find_element click
    current_url.

(** A [try] whose handler returns always returns. *)
Lemma try_except_returns {A} (m : io (CrossrefClient.World E) A) (a : A) w :
  exists r, fst (try_except m (fun _ => ret a) w) = Ok r.
Proof.
  unfold try_except, ret. destruct (m w) as [[x|e] w']; cbn; eauto.
Qed.

(** The fallback catches what it raises. *)
Lemma fallback_returns doi output_dir filename w :
  exists r, fst (fallback doi output_dir filename w) = Ok r.
Proof.
  unfold fallback, CrossrefClient._download_pdf_requests_fallback.
  destruct (str_contains "10.3390" doi).
  - apply try_except_returns.
  - cbn. eauto.
Qed.

(** X23.  When the output directory can be made and closing the browser
    never raises, [download_pdf] raises nothing: whatever the browser,
    the pages, the catalog and the publisher's server do, it returns a
    path or [None]. *)
Theorem download_pdf_returns doi output_dir w w1 :
  mkdir output_dir w = (Ok tt, w1) ->
  (forall driver w0, fst (driver_quit driver w0) = Ok tt) ->
  exists r, fst (download_pdf doi output_dir w) = Ok r.
Proof.
  intros Hmk Hquit.
  unfold download_pdf, CrossrefClient.download_pdf.
  unfold bind at 1. rewrite Hmk.
  destruct (Chrome output_dir w1) as [[driver|e] w2].
  - unfold bind at 1, try_finally.
    fold (interactive driver (CrossrefClient.clean_doi doi) output_dir
            (CrossrefClient.pdf_filename (CrossrefClient.clean_doi doi))).
    match goal with
    | |- context [try_except ?m ?h w2] =>
        destruct (try_except_returns m None w2) as [r Hr];
        destruct (try_except m h w2) as [r' w3]
    end.
    cbn [fst] in Hr. subst r'.
    specialize (Hquit driver w3).
    destruct (driver_quit driver w3) as [[[]|e] w4]; cbn [fst] in Hquit;
      [|discriminate].
    destruct r as [path|]; [cbn; eauto|].
    apply fallback_returns.
  - apply fallback_returns.
Qed.

(** X24.  When closing the browser raises, [download_pdf] raises the
    same, whatever the strategy had found: a PDF that was found and
    renamed is not returned. *)
Theorem download_pdf_quit_raises doi output_dir w w1 driver w2 e :
  mkdir output_dir w = (Ok tt, w1) ->
  Chrome output_dir w1 = (Ok driver, w2) ->
  (forall w0, fst (driver_quit driver w0) = Raise e) ->
  fst (download_pdf doi output_dir w) = Raise e.
Proof.
  intros Hmk Hchrome Hquit.
  unfold download_pdf, CrossrefClient.download_pdf.
  unfold bind at 1. rewrite Hmk, Hchrome.
  unfold bind at 1, try_finally.
  match goal with
  | |- context [try_except ?m ?h w2] => destruct (try_except m h w2) as [r w3]
  end.
  specialize (Hquit w3).
  destruct (driver_quit driver w3) as [[[]|e'] w4]; cbn [fst] in Hquit;
    [discriminate|].
  now injection Hquit as ->.
Qed.

(** X25.  When the browser cannot be started and the identifier does not
    contain [10.3390], [download_pdf] returns [None] and leaves the
    world as the failed start left it: no request is made. *)
Theorem download_pdf_no_browser_no_prefix doi output_dir w w1 e w2 :
  mkdir output_dir w = (Ok tt, w1) ->
  Chrome output_dir w1 = (Raise e, w2) ->
  str_contains "10.3390" (CrossrefClient.clean_doi doi) = false ->
  download_pdf doi output_dir w = (Ok None, w2).
Proof.
  intros Hmk Hchrome Hprefix.
  unfold download_pdf, CrossrefClient.download_pdf.
  unfold bind at 1. rewrite Hmk, Hchrome.
  unfold CrossrefClient._download_pdf_requests_fallback. now rewrite Hprefix.
Qed.

(** X26.  When the fallback has the landing page of the paper and the
    publisher's server answers the request for its PDF without an error
    status, the chunks received are written, in order, to the canonical
    file, which replaces a file of that name.  The path is returned when
    the stream ends well; when the stream breaks, [None] is returned and
    the file stays, with the chunks received until then. *)
Theorem fallback_writes_the_chunks
        doi output_dir filename w fields base_url w1 response w2 :
  str_contains "10.3390" doi = true ->
  CrossrefClient.get_metadata sleep session_get doi w = (Ok (JObj fields), w1) ->
  dict_get "URL" fields = Some (JStr base_url) ->
  session_get_stream (str_rstrip_char "/" base_url ++ "/pdf") w1 = (Ok response, w2) ->
  (CrossrefClient.stream_status response < 400
   \/ 600 <= CrossrefClient.stream_status response)%Z ->
  fallback doi output_dir filename w
  = (Ok (match CrossrefClient.stream_error response with
         | None => Some (CrossrefClient.path_join output_dir filename)
         | Some _ => None
         end),
     {| CrossrefClient.dir :=
          CrossrefClient.write_file filename
            (String.concat "" (CrossrefClient.chunks response))
            (now w2) (CrossrefClient.dir w2);
        CrossrefClient.ext := CrossrefClient.ext w2 |}).
Proof.
  intros Hprefix Hmeta Hurl Hstream Hstatus.
  unfold fallback, CrossrefClient._download_pdf_requests_fallback.
  rewrite Hprefix. unfold try_except.
  unfold bind at 1. rewrite Hmeta. rewrite Hurl.
  unfold bind at 1. rewrite Hstream.
  replace ((400 <=? CrossrefClient.stream_status response)
           && (CrossrefClient.stream_status response <? 600))%Z with false.
  2:{ symmetry. apply andb_false_iff.
      destruct Hstatus; [left; apply Z.leb_gt | right; apply Z.ltb_ge]; lia. }
  unfold bind, ret, raise.
  now destruct (CrossrefClient.stream_error response).
Qed.

(** X27.  When the latest PDF is not yet called by the canonical name,
    every file of that name in the directory after the collection is the
    latest PDF under its new name: what was stored under the canonical
    name before is gone. *)
Theorem collect_download_replaces output_dir filename w first rest f :
  CrossrefClient.glob ".pdf" (CrossrefClient.dir (Vocabulary.settled sleep w))
  = first :: rest ->
  let latest_pdf := CrossrefClient.max_by_mtime first rest in
  String.eqb (CrossrefClient.name latest_pdf) filename = false ->
  In f (CrossrefClient.dir
          (snd (CrossrefClient.collect_download sleep output_dir filename w))) ->
  CrossrefClient.name f = filename ->
  exists g,
    In g (CrossrefClient.dir (Vocabulary.settled sleep w))
    /\ CrossrefClient.name g = CrossrefClient.name latest_pdf
    /\ CrossrefClient.content f = CrossrefClient.content g
    /\ CrossrefClient.st_mtime f = CrossrefClient.st_mtime g.
Proof.
  intros Hglob latest_pdf Hname Hin Hf.
  unfold CrossrefClient.collect_download in Hin.
  fold (Vocabulary.settled sleep w) in Hin.
  rewrite Hglob in Hin. fold latest_pdf in Hin. rewrite Hname in Hin.
  cbn [negb snd CrossrefClient.dir] in Hin.
  unfold CrossrefClient.rename in Hin.
  apply in_map_iff in Hin as (g & Hg & Hing).
  apply filter_In in Hing as [Hing Hnot].
  exists g. split; [exact Hing|].
  destruct (String.eqb (CrossrefClient.name g) (CrossrefClient.name latest_pdf))
    eqn:Hsrc.
  - subst f. cbn. apply String.eqb_eq in Hsrc. now repeat split.
  - subst f. apply negb_true_iff, String.eqb_neq in Hnot. contradiction.
Qed.
End DownloadOutcomes.

Lemma download_pdf_returns_witness :
  exists r,
    fst (CrossrefClient.download_pdf Scenario.idle Scenario.clock
           Scenario.no_catalog Scenario.no_stream
           (fun _ => Scenario.found tt) (fun _ => Scenario.found tt)
           (fun _ _ => History.broken tt) (fun _ _ => History.broken tt)
           (fun _ _ => History.broken tt) (fun _ => History.broken tt)
           (fun _ => History.broken "") (fun _ => Scenario.found tt)
           "https://doi.org/10.3390/met14111217" "data/pdfs" Scenario.leftover)
    = Ok r.
Proof.
  apply (download_pdf_returns Scenario.idle Scenario.clock
           Scenario.no_catalog Scenario.no_stream
           (fun _ => Scenario.found tt) (fun _ => Scenario.found tt)
           (fun _ _ => History.broken tt) (fun _ _ => History.broken tt)
           (fun _ _ => History.broken tt) (fun _ => History.broken tt)
           (fun _ => History.broken "") (fun _ => Scenario.found tt)
           "https://doi.org/10.3390/met14111217" "data/pdfs" Scenario.leftover
           Scenario.leftover eq_refl).
  intros driver w0. reflexivity.
Defined.

Lemma download_pdf_quit_raises_witness :
  fst (CrossrefClient.download_pdf Scenario.idle Scenario.clock
         Scenario.no_catalog Scenario.no_stream
         (fun _ => Scenario.found tt) (fun _ => Scenario.found tt)
         (fun _ _ => Scenario.found tt) (fun _ _ => Scenario.found tt)
         (fun _ _ => Scenario.found tt) (fun _ => Scenario.found tt)
         (fun _ => Scenario.found "https://www.mdpi.com/2075-4701/14/11/1217")
         (fun _ => History.broken tt)
         "https://doi.org/10.3390/met14111217" "data/pdfs" Scenario.leftover)
  = Raise WebDriverException.
Proof.
  apply (download_pdf_quit_raises Scenario.idle Scenario.clock
           Scenario.no_catalog Scenario.no_stream
           (fun _ => Scenario.found tt) (fun _ => Scenario.found tt)
           (fun _ _ => Scenario.found tt) (fun _ _ => Scenario.found tt)
           (fun _ _ => Scenario.found tt) (fun _ => Scenario.found tt)
           (fun _ => Scenario.found "https://www.mdpi.com/2075-4701/14/11/1217")
           (fun _ => History.broken tt)
           "https://doi.org/10.3390/met14111217" "data/pdfs" Scenario.leftover
           Scenario.leftover tt Scenario.leftover WebDriverException
           eq_refl eq_refl).
  intros w0. reflexivity.
Defined.

Lemma download_pdf_no_browser_no_prefix_witness :
  CrossrefClient.download_pdf Scenario.idle Scenario.clock
    Scenario.no_catalog Scenario.no_stream
    (fun _ => Scenario.found tt) (fun _ => @History.broken unit tt)
    (fun _ _ => Scenario.found tt) (fun _ _ => Scenario.found tt)
    (fun _ _ => Scenario.found tt) (fun _ => Scenario.found tt)
    (fun _ => Scenario.found "") (fun _ => Scenario.found tt)
    "https://doi.org/10.1016/j.msea.2020.139021" "data/pdfs" Scenario.leftover
  = (Ok None, Scenario.leftover).
Proof.
  exact (download_pdf_no_browser_no_prefix Scenario.idle Scenario.clock
           Scenario.no_catalog Scenario.no_stream
           (fun _ => Scenario.found tt) (fun _ => @History.broken unit tt)
           (fun _ _ => Scenario.found tt) (fun _ _ => Scenario.found tt)
           (fun _ _ => Scenario.found tt) (fun _ => Scenario.found tt)
           (fun _ => Scenario.found "") (fun _ => Scenario.found tt)
           "https://doi.org/10.1016/j.msea.2020.139021" "data/pdfs"
           Scenario.leftover Scenario.leftover WebDriverException
           Scenario.leftover eq_refl eq_refl eq_refl).
Defined.

Lemma fallback_writes_the_chunks_witness :
  CrossrefClient._download_pdf_requests_fallback Scenario.idle Scenario.clock
    History.catalog_with_url History.stream_breaks
    "10.3390/met14111217" "data/pdfs" "10.3390_met14111217.pdf" Scenario.leftover
  = (Ok None,
     {| CrossrefClient.dir :=
          [ {| CrossrefClient.name := "10.3390_cryst9110586.pdf";
               CrossrefClient.st_mtime := 1700000000%Z;
               CrossrefClient.content := "%PDF-1.7 cryst9110586" |};
            {| CrossrefClient.name := "10.3390_met14111217.pdf";
               CrossrefClient.st_mtime := 1700000500%Z;
               CrossrefClient.content := "%PDF-1.7 met14111217" |} ];
        CrossrefClient.ext := tt |}).
Proof.
  exact (fallback_writes_the_chunks Scenario.idle Scenario.clock
           History.catalog_with_url History.stream_breaks
           "10.3390/met14111217" "data/pdfs" "10.3390_met14111217.pdf"
           Scenario.leftover
           [("URL", JStr "https://www.mdpi.com/2075-4701/14/11/1217/")]
           "https://www.mdpi.com/2075-4701/14/11/1217/" Scenario.leftover
           {| CrossrefClient.stream_status := 200;
              CrossrefClient.chunks := ["%PDF-1.7 met"; "14111217"];
              CrossrefClient.stream_error := Some ConnectionError |}
           Scenario.leftover eq_refl eq_refl eq_refl eq_refl
           (or_introl eq_refl)).
Defined.

Lemma collect_download_replaces_witness :
  exists g,
    In g (CrossrefClient.dir History.stored_and_newer)
    /\ CrossrefClient.name g = "metals-14-01217.pdf"
    /\ "%PDF-1.7 second version" = CrossrefClient.content g
    /\ 1700000400%Z = CrossrefClient.st_mtime g.
Proof.
  exact (collect_download_replaces Scenario.idle "data/pdfs"
           "10.3390_met14111217.pdf" History.stored_and_newer
           {| CrossrefClient.name := "10.3390_met14111217.pdf";
              CrossrefClient.st_mtime := 1700000000%Z;
              CrossrefClient.content := "%PDF-1.7 first version" |}
           [ {| CrossrefClient.name := "metals-14-01217.pdf";
                CrossrefClient.st_mtime := 1700000400%Z;
                CrossrefClient.content := "%PDF-1.7 second version" |} ]
           {| CrossrefClient.name := "10.3390_met14111217.pdf";
              CrossrefClient.st_mtime := 1700000400%Z;
              CrossrefClient.content := "%PDF-1.7 second version" |}
           eq_refl eq_refl (or_introl eq_refl) eq_refl).
Defined.
